(** * Document-layout detection pipeline: shallow embedding and properties

    Sources embedded:
    - [src/detect/doc_detector.cpp]: [detectDocLayout], [detectionsToJson]
    - [src/native_lib.cpp]: the JSON builders of [detectLayout] and
      [detectLayoutFromBytes]

    C++ [float] is IEEE-754 binary32.  It is modelled with the Standard
    Library's [spec_float] at precision 24 and exponent bound 128, so every
    multiplication, division and comparison below is the correctly rounded
    binary32 operation, NaN and infinities included. *)

From Stdlib Require Import ZArith List String Ascii Bool Lia DecimalString.
From Stdlib Require Import Floats.SpecFloat.
Import ListNotations.
Open Scope Z_scope.

(** ** binary32 arithmetic *)

Module F32.

Definition prec : Z := 24.
Definition emax : Z := 128.

Definition t := spec_float.

Definition mul : t -> t -> t := SFmul prec emax.
Definition div : t -> t -> t := SFdiv prec emax.

(** [a < b] and [a >= b] on floats; both are false when an operand is NaN. *)
Definition ltb (a b : t) : bool := SFltb a b.
Definition geb (a b : t) : bool :=
  match SFcompare a b with
  | Some (Gt | Eq) => true
  | _ => false
  end.
Definition leb (a b : t) : bool := SFleb a b.

(** [static_cast<float>(n)] for an integer [n]. *)
Definition of_Z (n : Z) : t := binary_normalize prec emax n 0 false.

(** The literals [0.0f] and [1.0f]. *)
Definition zero : t := S754_zero false.
Definition one : t := S754_finite false 8388608 (-23).

Definition valid (x : t) : bool := valid_binary prec emax x.

Definition is_nan (x : t) : bool :=
  match x with S754_nan => true | _ => false end.

(** Truncation toward zero, where the value is a number. *)
Definition trunc (x : t) : option Z :=
  match x with
  | S754_zero _ => Some 0
  | S754_finite s m e =>
      let a := Z.shiftl (Zpos m) e in
      Some (if s then - a else a)
  | S754_infinity _ | S754_nan => None
  end.

(** [std::min] and [std::max] of <algorithm>:
    [min(a,b) = (b < a) ? b : a] and [max(a,b) = (a < b) ? b : a]. *)
Definition std_min (a b : t) : t := if ltb b a then b else a.
Definition std_max (a b : t) : t := if ltb a b then b else a.

End F32.

(** ** 32-bit [int] *)

Definition INT_MIN : Z := - 2 ^ 31.
Definition INT_MAX : Z := 2 ^ 31 - 1.

Definition in_int_range (z : Z) : bool := (INT_MIN <=? z) && (z <=? INT_MAX).

(** [static_cast<int>] of an [int64_t]: reduction modulo 2^32 into the
    signed range. *)
Definition int_of_int64 (z : Z) : Z := (z + 2 ^ 31) mod 2 ^ 32 - 2 ^ 31.

(** ** Data model *)

(** [DetectionBox] of [doc_detector.h], with the fields [detectDocLayout]
    assigns. *)
Record DetectionBox := {
  x1 : F32.t;
  y1 : F32.t;
  x2 : F32.t;
  y2 : F32.t;
  score : F32.t;
  class_id : Z;
  class_name : string
}.

(** A [cv::Mat] as far as the pipeline looks at it: its [rows] and [cols]
    and its pixel buffer ([None] is a null data pointer). *)
Record Mat := {
  rows : Z;
  cols : Z;
  pixels : option (list Z)
}.

(** [cv::Mat::empty()]: no data, or no element. *)
Definition empty (m : Mat) : bool :=
  match pixels m with
  | None => true
  | Some _ => rows m * cols m =? 0
  end.

(** An [Ort::Value] holding a float tensor: shape and row-major data. *)
Record Tensor := {
  shape : list Z;
  values : list F32.t
}.

(** The exception classes the [catch] clauses of [detectDocLayout] name. *)
Inductive exn :=
| OrtException (what : string)
| CvException (what : string)
| StdException (what : string).

Inductive outcome (A : Type) :=
| Ok (a : A)
| Throw (e : exn).
Arguments Ok {A} a.
Arguments Throw {A} e.

(** An [Ort::Session]: the declared input and output names and the forward
    pass, [Run input_names input_tensors output_names]. *)
Record Session := {
  input_names : list string;
  output_names : list string;
  Run : list string -> list Tensor -> list string -> outcome (list Tensor)
}.

Definition GetInputCount (s : Session) : Z := Z.of_nat (List.length (input_names s)).
Definition GetOutputCount (s : Session) : Z := Z.of_nat (List.length (output_names s)).

Definition name_at (names : list string) (i : Z) : outcome string :=
  if i <? 0 then Throw (OrtException "index out of range")
  else match nth_error names (Z.to_nat i) with
       | Some n => Ok n
       | None => Throw (OrtException "index out of range")
       end.

Definition GetInputNameAllocated (s : Session) (i : Z) : outcome string :=
  name_at (input_names s) i.
Definition GetOutputNameAllocated (s : Session) (i : Z) : outcome string :=
  name_at (output_names s) i.

(** Calls that leave the pipeline, in the order they are made. *)
Inductive Event :=
| EvCreateSession (model_path : string)
| EvPreprocess (image : Mat) (target_width target_height : Z)
| EvImageToBlob (image : Mat)
| EvRun (names : list string) (tensors : list Tensor) (outputs : list string).

(** What outlives a call: the configured model path, the function-local
    statics of [detectDocLayout], and the log of outside calls. *)
Record Process := {
  MODEL_PATH : string;
  session : option Session;
  input_name : option string;
  output_name_0 : option string;
  output_name_1 : option string;
  trace : list Event
}.

Definition set_session (v : Session) (p : Process) : Process :=
  {| MODEL_PATH := MODEL_PATH p; session := Some v;
     input_name := input_name p; output_name_0 := output_name_0 p;
     output_name_1 := output_name_1 p; trace := trace p |}.
Definition set_input_name (v : string) (p : Process) : Process :=
  {| MODEL_PATH := MODEL_PATH p; session := session p;
     input_name := Some v; output_name_0 := output_name_0 p;
     output_name_1 := output_name_1 p; trace := trace p |}.
Definition set_output_name_0 (v : string) (p : Process) : Process :=
  {| MODEL_PATH := MODEL_PATH p; session := session p;
     input_name := input_name p; output_name_0 := Some v;
     output_name_1 := output_name_1 p; trace := trace p |}.
Definition set_output_name_1 (v : string) (p : Process) : Process :=
  {| MODEL_PATH := MODEL_PATH p; session := session p;
     input_name := input_name p; output_name_0 := output_name_0 p;
     output_name_1 := Some v; trace := trace p |}.
Definition emit (ev : Event) (p : Process) : Process :=
  {| MODEL_PATH := MODEL_PATH p; session := session p;
     input_name := input_name p; output_name_0 := output_name_0 p;
     output_name_1 := output_name_1 p; trace := trace p ++ [ev] |}.

(** The state of one call: the process and the local [results] vector,
    which is declared before the [try] block and returned after it. *)
Record Frame := {
  proc : Process;
  results : list DetectionBox
}.

(** ** State and exception monad of the [try] block *)

Definition M (A : Type) : Type := Frame -> outcome A * Frame.

Definition ret {A} (a : A) : M A := fun fr => (Ok a, fr).

Definition bind {A B} (m : M A) (k : A -> M B) : M B :=
  fun fr =>
    match m fr with
    | (Ok a, fr') => k a fr'
    | (Throw e, fr') => (Throw e, fr')
    end.

Definition lift {A} (o : outcome A) : M A := fun fr => (o, fr).

Definition log (ev : Event) : M unit :=
  fun fr => (Ok tt, {| proc := emit ev (proc fr); results := results fr |}).

Definition push_back (b : DetectionBox) : M unit :=
  fun fr => (Ok tt, {| proc := proc fr; results := results fr ++ [b] |}).

Declare Scope try_scope.
Delimit Scope try_scope with try.
Notation "x <- m ;; k" := (bind m (fun x => k))
  (at level 61, m at next level, right associativity) : try_scope.
Notation "' pat <- m ;; k" := (bind m (fun x => match x with pat => k end))
  (at level 61, pat pattern, m at next level, right associativity) : try_scope.
Notation "m ;;; k" := (bind m (fun _ => k))
  (at level 61, right associativity) : try_scope.

(** A function-local [static]: initialised by the first call that gets
    through its initialiser; an initialiser that throws leaves it unset. *)
Definition static_local {A} (get : Process -> option A)
    (set : A -> Process -> Process) (init : M A) : M A :=
  fun fr =>
    match get (proc fr) with
    | Some v => (Ok v, fr)
    | None =>
        match init fr with
        | (Ok v, fr') =>
            (Ok v, {| proc := set v (proc fr'); results := results fr' |})
        | (Throw e, fr') => (Throw e, fr')
        end
    end.

(** ** [detectDocLayout] *)

Section Pipeline.

(** [include/doc_detector.h] and the file defining the two preprocessing
    helpers are not among the sources; the class table and the helpers are
    taken as given.  [preprocessImage] returns the resized image and the
    pair [scale_factor[0]], [scale_factor[1]]. *)
Variable DOC_CLASSES : list string.
Variable preprocessImage : Mat -> Z -> Z -> outcome (Mat * (F32.t * F32.t)).
Variable imageToBlob : Mat -> outcome (list F32.t).

(** The runtime's session constructor, applied to the model path.  The
    static [Ort::Env], [Ort::SessionOptions] and allocator built next to it
    carry nothing the pipeline reads, and are part of this call. *)
Variable create_session : string -> outcome Session.

(** C++ leaves [static_cast<int>(f)] undefined when [f] is NaN or its
    truncation does not fit [int]; [cast_undefined f] is what the target
    yields there. *)
Variable cast_undefined : F32.t -> Z.

Definition int_of_float (f : F32.t) : Z :=
  match F32.trunc f with
  | Some z => if in_int_range z then z else cast_undefined f
  | None => cast_undefined f
  end.

(** [static_cast<int>(DOC_CLASSES.size())]. *)
Definition taxonomy_size : Z := int_of_int64 (Z.of_nat (List.length DOC_CLASSES)).

(** [output_data[k]].  The runtime hands out as many floats as the shape
    announces; the default stands for a read past them. *)
Definition at_index (output_data : list F32.t) (k : Z) : F32.t :=
  nth (Z.to_nat k) output_data F32.zero.

(** [std::max(0.0f, std::min(v, bound))]. *)
Definition clamp (v bound : F32.t) : F32.t :=
  F32.std_max F32.zero (F32.std_min v bound).

Definition get_model_path : M string :=
  fun fr => (Ok (MODEL_PATH (proc fr)), fr).

(** The two logging loops [for (size_t i = 0; i < count; i++)] that fetch
    each name and drop it. *)
Fixpoint fetch_names (get : Z -> outcome string) (fuel : nat) (i : Z) : M unit :=
  match fuel with
  | O => ret tt
  | S fuel' =>
      (_ <- lift (get i) ;;
       fetch_names get fuel' (i + 1))%try
  end.

(** Steps 1 to 6 of the [try] block: session and names, preprocessing,
    input tensors, forward pass.  Yields [outputs], [is_l_model] and
    [scale_factor].  [LOGD] expands to nothing and is left out.
    [Ort::Value::CreateTensor] wraps a buffer that is already there and is
    written as the tensor record it yields. *)
Definition infer (image : Mat) : M (list Tensor * bool * (F32.t * F32.t)) :=
  (sess <- static_local session set_session
             (path <- get_model_path ;;
              log (EvCreateSession path) ;;;
              lift (create_session path)) ;;
   _ <- static_local input_name set_input_name
             (lift (GetInputNameAllocated sess 0)) ;;
   let num_inputs := GetInputCount sess in
   let num_outputs := GetOutputCount sess in
   fetch_names (GetInputNameAllocated sess) (Z.to_nat num_inputs) 0 ;;;
   fetch_names (GetOutputNameAllocated sess) (Z.to_nat num_outputs) 0 ;;;
   out0 <- static_local output_name_0 set_output_name_0
             (lift (GetOutputNameAllocated sess 0)) ;;
   _ <- static_local output_name_1 set_output_name_1
             (lift (if num_outputs >? 1
                    then GetOutputNameAllocated sess 1
                    else GetOutputNameAllocated sess 0)) ;;
   let target_width := 640 in
   let target_height := 640 in
   log (EvPreprocess image target_width target_height) ;;;
   '(resized_img, scale_factor) <-
      lift (preprocessImage image target_width target_height) ;;
   log (EvImageToBlob resized_img) ;;;
   blob <- lift (imageToBlob resized_img) ;;
   let image_shape := [1; 3; target_height; target_width] in
   let scale_shape := [1; 2] in
   let image_tensor := {| shape := image_shape; values := blob |} in
   let scale_tensor :=
     {| shape := scale_shape;
        values := [fst scale_factor; snd scale_factor] |} in
   let output_names := [out0] in
   let is_l_model := num_inputs =? 3 in
   let im_shape_data := [F32.of_Z (rows image); F32.of_Z (cols image)] in
   let im_shape_shape := [1; 2] in
   let l_scale_factor := [F32.one; F32.one] in
   let '(input_names, input_tensors) :=
     if is_l_model then
       let im_shape_tensor :=
         {| shape := im_shape_shape; values := im_shape_data |} in
       let l_scale_tensor :=
         {| shape := scale_shape; values := l_scale_factor |} in
       (["im_shape"; "image"; "scale_factor"]%string,
        [im_shape_tensor; image_tensor; l_scale_tensor])
     else
       (["image"; "scale_factor"]%string, [image_tensor; scale_tensor]) in
   log (EvRun input_names input_tensors output_names) ;;;
   outputs <- lift (Run sess input_names input_tensors output_names) ;;
   ret (outputs, is_l_model, scale_factor))%try.

(** The body of [for (int i = 0; i < num_detections; i++)], from row [i]
    on, [fuel] rows to go.  [passed_count] is only logged and is left
    out. *)
Fixpoint decode_rows (fuel : nat) (i : Z) (output_data : list F32.t)
    (conf_threshold inv_scale_x inv_scale_y : F32.t) (image : Mat) : M unit :=
  match fuel with
  | O => ret tt
  | S fuel' =>
      let class_id := int_of_float (at_index output_data (i * 6 + 0)) in
      let score := at_index output_data (i * 6 + 1) in
      let x1 := at_index output_data (i * 6 + 2) in
      let y1 := at_index output_data (i * 6 + 3) in
      let x2 := at_index output_data (i * 6 + 4) in
      let y2 := at_index output_data (i * 6 + 5) in
      ((if F32.geb score conf_threshold
           && (class_id >=? 0) && (class_id <? taxonomy_size)
        then
          let box_x1 := F32.mul x1 inv_scale_x in
          let box_y1 := F32.mul y1 inv_scale_y in
          let box_x2 := F32.mul x2 inv_scale_x in
          let box_y2 := F32.mul y2 inv_scale_y in
          push_back
            {| x1 := clamp box_x1 (F32.of_Z (cols image));
               y1 := clamp box_y1 (F32.of_Z (rows image));
               x2 := clamp box_x2 (F32.of_Z (cols image));
               y2 := clamp box_y2 (F32.of_Z (rows image));
               score := score;
               class_id := class_id;
               class_name := nth (Z.to_nat class_id) DOC_CLASSES EmptyString |}
        else ret tt) ;;;
       decode_rows fuel' (i + 1) output_data
         conf_threshold inv_scale_x inv_scale_y image)%try
  end.

(** Steps 7 and 8: shape and data of [outputs[0]], the inverse scale, and
    the row loop. *)
Definition decode (image : Mat) (conf_threshold : F32.t)
    (outputs : list Tensor) (is_l_model : bool)
    (scale_factor : F32.t * F32.t) : M unit :=
  let output0 := nth 0 outputs {| shape := []; values := [] |} in
  let output_shape := shape output0 in
  let num_detections := int_of_int64 (nth 0 output_shape 0) in
  let output_data := values output0 in
  let inv_scale_x :=
    if is_l_model then F32.one else F32.div F32.one (fst scale_factor) in
  let inv_scale_y :=
    if is_l_model then F32.one else F32.div F32.one (snd scale_factor) in
  decode_rows (Z.to_nat num_detections) 0 output_data
    conf_threshold inv_scale_x inv_scale_y image.

Definition try_block (image : Mat) (conf_threshold : F32.t) : M unit :=
  ('(outputs, is_l_model, scale_factor) <- infer image ;;
   decode image conf_threshold outputs is_l_model scale_factor)%try.

(** The whole function: the empty-image return, the [try] block, the three
    [catch] clauses (each drops the exception), and [return results]. *)
Definition detectDocLayout (image : Mat) (conf_threshold : F32.t)
    (p : Process) : list DetectionBox * Process :=
  let fr0 := {| proc := p; results := [] |} in
  if empty image then (results fr0, proc fr0)
  else
    let '(r, fr) := try_block image conf_threshold fr0 in
    match r with
    | Ok _ => (results fr, proc fr)
    | Throw (OrtException _) => (results fr, proc fr)
    | Throw (CvException _) => (results fr, proc fr)
    | Throw (StdException _) => (results fr, proc fr)
    end.

(** *** Serializers *)

(** A [std::ostringstream]: the text so far and the two sticky format
    flags the serializers set, [std::fixed] and [std::setprecision]. *)
Record ostringstream := {
  str : string;
  floatfield_fixed : bool;
  precision : Z
}.

Definition new_ostringstream : ostringstream :=
  {| str := EmptyString; floatfield_fixed := false; precision := 6 |}.

Fixpoint zeros (n : nat) : string :=
  match n with
  | O => EmptyString
  | S n' => String "0" (zeros n')
  end.

Definition pad_left (n : nat) (s : string) : string :=
  (zeros (n - String.length s) ++ s)%string.

Definition string_of_Z (z : Z) : string := NilZero.string_of_int (Z.to_int z).

(** [num / den] rounded to the nearest integer, ties to even. *)
Definition round_half_even (num den : Z) : Z :=
  let q := num / den in
  match 2 * (num mod den) ?= den with
  | Lt => q
  | Gt => q + 1
  | Eq => if Z.even q then q else q + 1
  end.

(** Fixed notation with [p] decimals, as the C++ library renders a float
    after [std::fixed]: the exact binary value, rounded to nearest with
    ties to even. *)
Definition format_fixed (p : Z) (x : F32.t) : string :=
  let sign (s : bool) := if s then "-"%string else EmptyString in
  let digits (n : Z) :=
    let int_part := string_of_Z (n / 10 ^ p) in
    let frac_part := pad_left (Z.to_nat p) (string_of_Z (n mod 10 ^ p)) in
    if p <=? 0 then int_part else (int_part ++ "." ++ frac_part)%string in
  match x with
  | S754_nan => "nan"%string
  | S754_infinity s => (sign s ++ "inf")%string
  | S754_zero s => (sign s ++ digits 0)%string
  | S754_finite s m e =>
      let n :=
        match e with
        | Zneg k => round_half_even (Zpos m * 10 ^ p) (2 ^ Zpos k)
        | _ => Zpos m * 2 ^ e * 10 ^ p
        end in
      (sign s ++ digits n)%string
  end.

(** The default (general) float notation; no serializer prints a float
    before it has set [std::fixed]. *)
Variable format_general : Z -> F32.t -> string.

Definition put (s : string) (o : ostringstream) : ostringstream :=
  {| str := (str o ++ s)%string;
     floatfield_fixed := floatfield_fixed o; precision := precision o |}.
Definition fixed (o : ostringstream) : ostringstream :=
  {| str := str o; floatfield_fixed := true; precision := precision o |}.
Definition setprecision (n : Z) (o : ostringstream) : ostringstream :=
  {| str := str o; floatfield_fixed := floatfield_fixed o; precision := n |}.
Definition put_float (x : F32.t) (o : ostringstream) : ostringstream :=
  put (if floatfield_fixed o then format_fixed (precision o) x
       else format_general (precision o) x) o.
Definition put_int (z : Z) (o : ostringstream) : ostringstream :=
  put (string_of_Z z) o.

Notation "o << f" := (f o) (at level 51, left associativity, only parsing).

(** The double-quote character the C++ literals escape, and the literal
    that opens a field: the quoted name and a colon. *)
Definition dquote : string := String (ascii_of_nat 34) EmptyString.
Definition key (k : string) : string := (dquote ++ k ++ dquote ++ ":")%string.

Definition default_box : DetectionBox :=
  {| x1 := F32.zero; y1 := F32.zero; x2 := F32.zero; y2 := F32.zero;
     score := F32.zero; class_id := 0; class_name := EmptyString |}.

(** [detections.size() - 1] in [size_t]. *)
Definition size_minus_1 (detections : list DetectionBox) : Z :=
  (Z.of_nat (List.length detections) - 1) mod 2 ^ 64.

(** The loop [for (size_t i = 0; i < detections.size(); i++)] shared, up
    to the coordinate precision, by the three serializers:
    [std::setprecision(2)] in [detectionsToJson], [std::setprecision(1)]
    in [detectLayout] and [detectLayoutFromBytes]. *)
Fixpoint put_detections (coord_precision : Z) (fuel : nat) (i : Z)
    (detections : list DetectionBox) (json : ostringstream) : ostringstream :=
  match fuel with
  | O => json
  | S fuel' =>
      let box := nth (Z.to_nat i) detections default_box in
      let json := json << put "{" in
      let json := json << put (key "x1") << fixed
                       << setprecision coord_precision
                       << put_float (x1 box) << put "," in
      let json := json << put (key "y1") << put_float (y1 box) << put "," in
      let json := json << put (key "x2") << put_float (x2 box) << put "," in
      let json := json << put (key "y2") << put_float (y2 box) << put "," in
      let json := json << put (key "score") << setprecision 4
                       << put_float (score box) << put "," in
      let json := json << put (key "class_id") << put_int (class_id box)
                       << put "," in
      let json := json << put (key "class_name" ++ dquote)%string << put (class_name box)
                       << put dquote in
      let json := json << put "}" in
      let json :=
        if i <? size_minus_1 detections then json << put "," else json in
      put_detections coord_precision fuel' (i + 1) detections json
  end.

Definition detectionsToJson (detections : list DetectionBox) : string :=
  let json := new_ostringstream in
  let json := json << put ("{" ++ key "detections" ++ "[")%string in
  let json := put_detections 2 (List.length detections) 0 detections json in
  let json := json << put ("]," ++ key "count")%string
                   << put_int (Z.of_nat (List.length detections))
                   << put "}" in
  str json.

(** The block [// Build JSON response] of [detectLayout]; [image] is the
    decoded image and [inference_time] the elapsed milliseconds. *)
Definition detectLayout_response (detections : list DetectionBox)
    (inference_time : Z) (image : Mat) : string :=
  let json := new_ostringstream in
  let json := json << put ("{" ++ key "detections" ++ "[")%string in
  let json := put_detections 1 (List.length detections) 0 detections json in
  let json := json << put "]," in
  let json := json << put (key "count")
                   << put_int (Z.of_nat (List.length detections)) << put "," in
  let json := json << put (key "inference_time_ms") << put_int inference_time
                   << put "," in
  let json := json << put (key "image_width") << put_int (cols image)
                   << put "," in
  let json := json << put (key "image_height") << put_int (rows image) in
  let json := json << put "}" in
  str json.

(** The same block of [detectLayoutFromBytes], which prints the caller's
    [width] and [height]. *)
Definition detectLayoutFromBytes_response (detections : list DetectionBox)
    (inference_time : Z) (width height : Z) : string :=
  let json := new_ostringstream in
  let json := json << put ("{" ++ key "detections" ++ "[")%string in
  let json := put_detections 1 (List.length detections) 0 detections json in
  let json := json << put "]," in
  let json := json << put (key "count")
                   << put_int (Z.of_nat (List.length detections)) << put "," in
  let json := json << put (key "inference_time_ms") << put_int inference_time
                   << put "," in
  let json := json << put (key "image_width") << put_int width << put "," in
  let json := json << put (key "image_height") << put_int height in
  let json := json << put "}" in
  str json.

End Pipeline.

(** ** Closed forms the properties are stated with *)

Section ClosedForms.

Variable DOC_CLASSES : list string.
Variable cast_undefined : F32.t -> Z.

(** The row numbers [0 .. n-1] of the decoding loop. *)
Definition row_indices (n : Z) : list Z := map Z.of_nat (seq 0 (Z.to_nat n)).

(** The guard of the loop body at row [i]. *)
Definition row_passes (output_data : list F32.t) (conf_threshold : F32.t)
    (i : Z) : bool :=
  let class_id := int_of_float cast_undefined (at_index output_data (i * 6 + 0)) in
  F32.geb (at_index output_data (i * 6 + 1)) conf_threshold
  && (0 <=? class_id) && (class_id <? taxonomy_size DOC_CLASSES).

(** The box the loop body builds from row [i]. *)
Definition row_box (output_data : list F32.t)
    (inv_scale_x inv_scale_y : F32.t) (image : Mat) (i : Z) : DetectionBox :=
  let class_id := int_of_float cast_undefined (at_index output_data (i * 6 + 0)) in
  {| x1 := clamp (F32.mul (at_index output_data (i * 6 + 2)) inv_scale_x)
                 (F32.of_Z (cols image));
     y1 := clamp (F32.mul (at_index output_data (i * 6 + 3)) inv_scale_y)
                 (F32.of_Z (rows image));
     x2 := clamp (F32.mul (at_index output_data (i * 6 + 4)) inv_scale_x)
                 (F32.of_Z (cols image));
     y2 := clamp (F32.mul (at_index output_data (i * 6 + 5)) inv_scale_y)
                 (F32.of_Z (rows image));
     score := at_index output_data (i * 6 + 1);
     class_id := class_id;
     class_name := nth (Z.to_nat class_id) DOC_CLASSES EmptyString |}.

(** What a call returns once the forward pass has produced [outputs]:
    the passing rows, in row order. *)
Definition decoded (image : Mat) (conf_threshold : F32.t)
    (outputs : list Tensor) (is_l_model : bool)
    (scale_factor : F32.t * F32.t) : list DetectionBox :=
  let output0 := nth 0 outputs {| shape := []; values := [] |} in
  let inv_scale_x :=
    if is_l_model then F32.one else F32.div F32.one (fst scale_factor) in
  let inv_scale_y :=
    if is_l_model then F32.one else F32.div F32.one (snd scale_factor) in
  map (row_box (values output0) inv_scale_x inv_scale_y image)
    (filter (row_passes (values output0) conf_threshold)
       (row_indices (int_of_int64 (nth 0 (shape output0) 0)))).

(** The names and tensors handed to [Run] for a model with [num_inputs]
    declared inputs. *)
Definition submitted (num_inputs : Z) (image : Mat) (blob : list F32.t)
    (scale_factor : F32.t * F32.t) : list string * list Tensor :=
  let image_tensor := {| shape := [1; 3; 640; 640]; values := blob |} in
  if num_inputs =? 3 then
    (["im_shape"; "image"; "scale_factor"]%string,
     [{| shape := [1; 2];
         values := [F32.of_Z (rows image); F32.of_Z (cols image)] |};
      image_tensor;
      {| shape := [1; 2]; values := [F32.one; F32.one] |}])
  else
    (["image"; "scale_factor"]%string,
     [image_tensor;
      {| shape := [1; 2];
         values := [fst scale_factor; snd scale_factor] |}]).

(** One detection object as text, coordinates with [coord_precision]
    decimals and the score with [score_precision]. *)
Definition render_box (coord_precision score_precision : Z)
    (box : DetectionBox) : string :=
  ("{" ++ key "x1" ++ format_fixed coord_precision (x1 box) ++ ","
       ++ key "y1" ++ format_fixed coord_precision (y1 box) ++ ","
       ++ key "x2" ++ format_fixed coord_precision (x2 box) ++ ","
       ++ key "y2" ++ format_fixed coord_precision (y2 box) ++ ","
       ++ key "score" ++ format_fixed score_precision (score box) ++ ","
       ++ key "class_id" ++ string_of_Z (class_id box) ++ ","
       ++ key "class_name" ++ dquote ++ class_name box ++ dquote
       ++ "}")%string.

End ClosedForms.

(** Modelled from the spec: [preprocessImage], whose definition is not among
    the sources.  Section 4.1: a plain stretch resize to the target size and
    a [ScaleFactor] equal to
    [(target_width/original_width, target_height/original_height)].  The
    resize itself is the image library's. *)
Definition preprocessImage_spec (resize : Mat -> Z -> Z -> Mat)
    (image : Mat) (target_width target_height : Z)
    : outcome (Mat * (F32.t * F32.t)) :=
  Ok (resize image target_width target_height,
      (F32.div (F32.of_Z target_width) (F32.of_Z (cols image)),
       F32.div (F32.of_Z target_height) (F32.of_Z (rows image)))).

(** ** Concrete collaborators for the worked examples *)

Module Stub.

(** A decimal literal [num/den] as the nearest binary32. *)
Definition f32 (num den : Z) : F32.t := F32.div (F32.of_Z num) (F32.of_Z den).

(** A short class table for the examples; the deployed one is in the
    header. *)
Definition classes : list string :=
  ["paragraph_title"; "image"; "text"; "number"]%string.

(** The two usual answers of a target to an out-of-range float-to-int
    conversion: the x86 indefinite value, and the ARM saturation with NaN
    sent to zero. *)
Definition cast_x86 (f : F32.t) : Z := INT_MIN.
Definition cast_arm (f : F32.t) : Z :=
  match f with
  | S754_nan => 0
  | S754_infinity true | S754_finite true _ _ => INT_MIN
  | _ => INT_MAX
  end.

Definition picture (width height : Z) : Mat :=
  {| rows := height; cols := width; pixels := Some [] |}.

Definition no_picture : Mat := {| rows := 0; cols := 0; pixels := None |}.

Definition resize (image : Mat) (target_width target_height : Z) : Mat :=
  picture target_width target_height.

Definition stretch (image : Mat) (target_width target_height : Z)
    : outcome (Mat * (F32.t * F32.t)) :=
  preprocessImage_spec resize image target_width target_height.

Definition blob (image : Mat) : outcome (list F32.t) := Ok [].

(** A session that declares [inputs] and answers every [Run] with [out]. *)
Definition model (inputs : list string) (out : outcome (list Tensor)) : Session :=
  {| input_names := inputs;
     output_names := ["fetch_name_0"; "fetch_name_1"]%string;
     Run := fun _ _ _ => out |}.

Definition load (s : Session) (path : string) : outcome Session := Ok s.
Definition load_fails (path : string) : outcome Session :=
  Throw (OrtException "Load model failed").

(** A process before its first call. *)
Definition cold : Process :=
  {| MODEL_PATH := "model.onnx"; session := None; input_name := None;
     output_name_0 := None; output_name_1 := None; trace := [] |}.

Definition rows_tensor (n : Z) (data : list F32.t) : Tensor :=
  {| shape := [n; 6]; values := data |}.

Definition m_inputs : list string := ["image"; "scale_factor"]%string.
Definition l_inputs : list string := ["im_shape"; "image"; "scale_factor"]%string.

End Stub.

Module Scenario.

Import Stub.

Definition half : F32.t := f32 1 2.

(** The 1280x960 picture and the raw row
    [class_id=2, score=0.87, x1=100, y1=50, x2=300, y2=200]. *)
Definition image : Mat := picture 1280 960.
Definition row : list F32.t :=
  [F32.of_Z 2; f32 87 100; F32.of_Z 100; F32.of_Z 50; F32.of_Z 300; F32.of_Z 200].
Definition m_model : Session := model m_inputs (Ok [rows_tensor 1 row]).

(** The box the scenario is said to decode to, and the box it decodes
    to. *)
Definition claimed_box : DetectionBox :=
  {| x1 := F32.of_Z 200; y1 := F32.of_Z 100;
     x2 := F32.of_Z 600; y2 := F32.of_Z 400;
     score := f32 87 100; class_id := 2;
     class_name := nth 2 classes EmptyString |}.
Definition decoded_box : DetectionBox :=
  {| x1 := F32.of_Z 200; y1 := F32.of_Z 75;
     x2 := F32.of_Z 600; y2 := F32.of_Z 300;
     score := f32 87 100; class_id := 2;
     class_name := nth 2 classes EmptyString |}.

(** A three-input model whose one row has [x1 = 300] right of
    [x2 = 100], both inside an 800x600 picture. *)
Definition crossed_row : list F32.t :=
  [F32.of_Z 0; f32 9 10; F32.of_Z 300; F32.of_Z 10; F32.of_Z 100; F32.of_Z 50].
Definition crossed_model : Session :=
  model l_inputs (Ok [rows_tensor 1 crossed_row]).
Definition crossed_box : DetectionBox :=
  {| x1 := F32.of_Z 300; y1 := F32.of_Z 10;
     x2 := F32.of_Z 100; y2 := F32.of_Z 50;
     score := f32 9 10; class_id := 0;
     class_name := nth 0 classes EmptyString |}.

(** Models declaring four inputs and one input. *)
Definition four_input_model : Session :=
  model ["in0"; "in1"; "in2"; "in3"]%string (Ok [rows_tensor 1 row]).
Definition one_input_model : Session :=
  model ["image"]%string (Ok [rows_tensor 1 row]).

(** Rows of class 0 with the scores [-0.5] and NaN. *)
Definition negative_score_row : list F32.t :=
  [F32.of_Z 0; f32 (-1) 2; F32.of_Z 10; F32.of_Z 10; F32.of_Z 50; F32.of_Z 50].
Definition nan_score_row : list F32.t :=
  [F32.of_Z 0; S754_nan; F32.of_Z 10; F32.of_Z 10; F32.of_Z 50; F32.of_Z 50].

(** A model whose forward pass throws. *)
Definition failing_model : Session :=
  model m_inputs (Throw (OrtException "Run failed")).

(** A process whose statics hold [s] from an earlier call. *)
Definition warm (s : Session) : Process :=
  {| MODEL_PATH := "model.onnx"; session := Some s;
     input_name := Some "image"%string;
     output_name_0 := Some "fetch_name_0"%string;
     output_name_1 := Some "fetch_name_1"%string; trace := [] |}.

Definition general_unused (p : Z) (x : F32.t) : string := EmptyString.

End Scenario.

(** A computation that leaves [results] alone, whether it returns or
    throws. *)
Definition keeps_results {A} (m : M A) : Prop :=
  forall fr, results (snd (m fr)) = results fr.

(** The integer a binary32 value is, when it is one. *)
Definition integer_value (x : F32.t) : option Z :=
  match x with
  | S754_zero _ => Some 0
  | S754_finite s m e =>
      let signed (a : Z) := if s then - a else a in
      match e with
      | Zneg k =>
          if Zpos m mod 2 ^ Zpos k =? 0
          then Some (signed (Zpos m / 2 ^ Zpos k))
          else None
      | _ => Some (signed (Zpos m * 2 ^ e))
      end
  | S754_infinity _ | S754_nan => None
  end.

(** ** What a call may change in the process *)

Definition is_create (ev : Event) : bool :=
  match ev with
  | EvCreateSession _ => true
  | _ => false
  end.

(** A static that is set keeps its value. *)
Definition kept {A} (before after : option A) : Prop :=
  forall v, before = Some v -> after = Some v.

(** [later p p']: [p'] can follow [p].  The model path is the same, no
    static that was set has changed, the call log has only grown, and no
    session was created if one was there. *)
Definition later (p p' : Process) : Prop :=
  MODEL_PATH p' = MODEL_PATH p
  /\ kept (session p) (session p')
  /\ kept (input_name p) (input_name p')
  /\ kept (output_name_0 p) (output_name_0 p')
  /\ kept (output_name_1 p) (output_name_1 p')
  /\ exists added,
       trace p' = trace p ++ added
       /\ (session p <> None ->
           forallb (fun ev => negb (is_create ev)) added = true).

Definition keeps_later {A} (m : M A) : Prop :=
  forall fr, later (proc fr) (proc (snd (m fr))).

(** The process [p] with another configured model path. *)
Definition with_path (path : string) (p : Process) : Process :=
  {| MODEL_PATH := path; session := session p;
     input_name := input_name p; output_name_0 := output_name_0 p;
     output_name_1 := output_name_1 p; trace := trace p |}.

Definition with_path_frame (path : string) (fr : Frame) : Frame :=
  {| proc := with_path path (proc fr); results := results fr |}.

(** A computation that neither reads nor writes the model path. *)
Definition path_blind {A} (m : M A) : Prop :=
  forall path fr,
    m (with_path_frame path fr)
    = (fst (m fr), with_path_frame path (snd (m fr))).

(** ** The exported entry points of [native_lib.cpp] *)

(** The element types and colour conversions [detectLayoutFromBytes]
    names. *)
Inductive MatType := CV_8UC1 | CV_8UC3 | CV_8UC4.
Inductive ColorConversionCode := COLOR_RGBA2BGR | COLOR_GRAY2BGR.

(** [strdup(s.c_str())]: the copy ends before the first NUL character. *)
Fixpoint strdup_c_str (s : string) : string :=
  match s with
  | EmptyString => EmptyString
  | String c s' =>
      if Ascii.eqb c Ascii.zero then EmptyString
      else String c (strdup_c_str s')
  end.

Fixpoint has_nul (s : string) : bool :=
  match s with
  | EmptyString => false
  | String c s' => Ascii.eqb c Ascii.zero || has_nul s'
  end.

(** [duration_cast<milliseconds>(end - start).count()], the two readings of
    [high_resolution_clock] being counted in nanoseconds. *)
Definition elapsed_ms (start stop : Z) : Z := Z.quot (stop - start) 1000000.

(** The literal returned when the image cannot be read. *)
Definition image_load_failed : string :=
  ("{" ++ key "error" ++ dquote ++ "Could not load image" ++ dquote ++ ","
       ++ key "code" ++ dquote ++ "IMAGE_LOAD_FAILED" ++ dquote ++ "}")%string.

Section NativeLib.

Variable DOC_CLASSES : list string.
Variable preprocessImage : Mat -> Z -> Z -> outcome (Mat * (F32.t * F32.t)).
Variable imageToBlob : Mat -> outcome (list F32.t).
Variable create_session : string -> outcome Session.
Variable cast_undefined : F32.t -> Z.
Variable format_general : Z -> F32.t -> string.

(** [cv::imread], which yields an empty matrix for a file it cannot read,
    and [cv::cvtColor] applied to a matrix of the given element type. *)
Variable imread : string -> Mat.
Variable cvtColor : MatType -> Mat -> ColorConversionCode -> outcome Mat.

(** [detectLayout]: the body of the lambda, which [std::async(...).get()]
    runs to its end before [strdup] copies the text.  [start] and [stop]
    are the two clock readings. *)
Definition detectLayout (img_path : string) (conf_threshold : F32.t)
    (start stop : Z) (p : Process) : string * Process :=
  let image := imread img_path in
  if empty image then (strdup_c_str image_load_failed, p)
  else
    let '(detections, p') :=
      detectDocLayout DOC_CLASSES preprocessImage imageToBlob create_session
        cast_undefined image conf_threshold p in
    let inference_time := elapsed_ms start stop in
    (strdup_c_str
       (detectLayout_response format_general detections inference_time image),
     p').

(** [cv::Mat(rows, cols, type, data)] over a caller's buffer, [None] being
    a null pointer.  The constructor asserts that the buffer is not null
    unless the matrix has no element. *)
Definition Mat_of_buffer (rows cols : Z) (data : option (list Z))
    : outcome Mat :=
  match data with
  | Some _ => Ok {| rows := rows; cols := cols; pixels := data |}
  | None =>
      if rows * cols =? 0
      then Ok {| rows := rows; cols := cols; pixels := None |}
      else Throw (CvException "total() == 0 || data != NULL")
  end.

(** [detectLayoutFromBytes] on a caller's buffer [image_data].  Nothing
    catches what the [cv::Mat] constructor or [cv::cvtColor] throws:
    [Throw] is an exception leaving the exported function. *)
Definition detectLayoutFromBytes (image_data : option (list Z))
    (width height channels : Z) (conf_threshold : F32.t)
    (start stop : Z) (p : Process) : outcome (string * Process) :=
  let cv_type :=
    if channels =? 4 then CV_8UC4
    else if channels =? 3 then CV_8UC3 else CV_8UC1 in
  match Mat_of_buffer height width image_data with
  | Throw e => Throw e
  | Ok image =>
      let converted :=
        if channels =? 4 then cvtColor cv_type image COLOR_RGBA2BGR
        else if channels =? 1 then cvtColor cv_type image COLOR_GRAY2BGR
        else Ok image in
      match converted with
      | Throw e => Throw e
      | Ok bgr_image =>
          let '(detections, p') :=
            detectDocLayout DOC_CLASSES preprocessImage imageToBlob
              create_session cast_undefined bgr_image conf_threshold p in
          let inference_time := elapsed_ms start stop in
          Ok (strdup_c_str
                (detectLayoutFromBytes_response format_general detections
                   inference_time width height),
              p')
      end
  end.

(** [getVersion]. *)
Definition getVersion : string := "1.0.0".

End NativeLib.

(** Collaborators of the exported entry points for the worked examples. *)
Module Host.

(** Only [page.png] can be read; it is the 1280x960 picture. *)
Definition imread (path : string) : Mat :=
  if String.eqb path "page.png" then Stub.picture 1280 960
  else Stub.no_picture.

(** A conversion that keeps the size, and one that rejects its input. *)
Definition cvtColor (type : MatType) (m : Mat) (code : ColorConversionCode)
    : outcome Mat := Ok m.
Definition cvtColor_fails (type : MatType) (m : Mat)
    (code : ColorConversionCode) : outcome Mat :=
  Throw (CvException "cvtColor").

(** A row of class 2 with score 0.6, and a model answering with the
    scenario row followed by it. *)
Definition low_row : list F32.t :=
  [F32.of_Z 2; Stub.f32 6 10; F32.of_Z 20; F32.of_Z 20; F32.of_Z 40; F32.of_Z 40].
Definition two_row_model : Session :=
  Stub.model Stub.m_inputs
    (Ok [Stub.rows_tensor 2 (Scenario.row ++ low_row)]).

(** Models declaring no input, and no output. *)
Definition no_input_model : Session :=
  Stub.model [] (Ok [Stub.rows_tensor 1 Scenario.row]).
Definition no_output_model : Session :=
  {| input_names := Stub.m_inputs; output_names := [];
     Run := fun _ _ _ => Ok [Stub.rows_tensor 1 Scenario.row] |}.


End Host.

(** ** Order facts for binary32 comparison *)

Section FloatOrder.

Ltac fold_compare :=
  repeat match goal with
    | |- context [PosDef.Pos.compare_cont Eq ?a ?b] =>
        change (PosDef.Pos.compare_cont Eq a b) with (Pos.compare a b)
    | H : context [PosDef.Pos.compare_cont Eq ?a ?b] |- _ =>
        change (PosDef.Pos.compare_cont Eq a b) with (Pos.compare a b) in H
    end.

Ltac order_cases :=
  fold_compare;
  repeat match goal with
    | H : context [(?a ?= ?b)%Z] |- _ => destruct (Z.compare_spec a b)
    | |- context [(?a ?= ?b)%Z] => destruct (Z.compare_spec a b)
    | H : context [(?a ?= ?b)%positive] |- _ => destruct (Pos.compare_spec a b)
    | |- context [(?a ?= ?b)%positive] => destruct (Pos.compare_spec a b)
    end;
  simpl in *; subst; try discriminate; try reflexivity; try lia.

Lemma SFcompare_antisym (a b : F32.t) :
  SFcompare a b = option_map CompOpp (SFcompare b a).
Proof.
  destruct a as [sa|sa| |sa ma ea], b as [sb|sb| |sb mb eb]; simpl;
    try reflexivity;
    try (destruct sa; reflexivity); try (destruct sb; reflexivity);
    try (destruct sa, sb; reflexivity).
  destruct sa, sb; simpl; try reflexivity; order_cases.
Qed.

Lemma ltb_leb (a b : F32.t) : F32.ltb a b = true -> F32.leb a b = true.
Proof.
  unfold F32.ltb, F32.leb, SFltb, SFleb.
  destruct (SFcompare a b) as [[| |]|]; congruence.
Qed.

Lemma ltb_not_nan_r (a b : F32.t) : F32.ltb a b = true -> F32.is_nan b = false.
Proof.
  unfold F32.ltb, SFltb.
  destruct a as [| | |[] ? ?], b as [| | |[] ? ?]; simpl; congruence.
Qed.

Lemma leb_not_nan (a b : F32.t) :
  F32.leb a b = true -> F32.is_nan a = false /\ F32.is_nan b = false.
Proof.
  unfold F32.leb, SFleb.
  destruct a as [| | |[] ? ?], b as [| | |[] ? ?]; simpl; auto; congruence.
Qed.

Lemma leb_refl (a : F32.t) : F32.is_nan a = false -> F32.leb a a = true.
Proof.
  unfold F32.leb, SFleb.
  destruct a as [sa|sa| |sa ma ea]; simpl; try congruence; intros _.
  - destruct sa; reflexivity.
  - fold_compare. rewrite Z.compare_refl, Pos.compare_refl.
    destruct sa; reflexivity.
Qed.

(** Two numbers are comparable: when [b < a] fails, [a <= b]. *)
Lemma not_ltb_leb (a b : F32.t) :
  F32.is_nan a = false -> F32.is_nan b = false ->
  F32.ltb b a = false -> F32.leb a b = true.
Proof.
  unfold F32.ltb, F32.leb, SFltb, SFleb. intros Ha Hb.
  rewrite (SFcompare_antisym a b).
  destruct (SFcompare b a) as [[| |]|] eqn:E; simpl; try congruence.
  destruct a, b; simpl in *; congruence.
Qed.

Lemma ltb_leb_trans (a b c : F32.t) :
  F32.ltb a b = true -> F32.leb b c = true -> F32.ltb a c = true.
Proof.
  unfold F32.ltb, F32.leb, SFltb, SFleb.
  destruct a as [sa|sa| |sa ma ea], b as [sb|sb| |sb mb eb],
           c as [sc|sc| |sc mc ec]; simpl;
    try discriminate; try reflexivity;
    repeat match goal with s : bool |- _ => destruct s end; simpl;
    try discriminate; try reflexivity;
    intros H1 H2; order_cases.
Qed.

End FloatOrder.

(** ** Conversion of a non-negative integer to binary32 *)

Section OfZ.

Lemma shr_1_nonneg (mrs : shr_record) : 0 <= shr_m mrs -> 0 <= shr_m (shr_1 mrs).
Proof.
  destruct mrs as [m r s]; simpl.
  destruct m as [|[p|p|]|[p|p|]]; simpl; lia.
Qed.

Lemma iter_shr_1_nonneg (n : positive) :
  forall mrs, 0 <= shr_m mrs -> 0 <= shr_m (iter_pos shr_1 n mrs).
Proof.
  induction n as [n IH|n IH|]; simpl; intros mrs H.
  - apply IH, IH, shr_1_nonneg, H.
  - apply IH, IH, H.
  - apply shr_1_nonneg, H.
Qed.

Lemma shr_fexp_nonneg (m e : Z) (l : location) :
  0 <= m -> 0 <= shr_m (fst (shr_fexp F32.prec F32.emax m e l)).
Proof.
  intros H. unfold shr_fexp, shr.
  assert (H0 : 0 <= shr_m (shr_record_of_loc m l))
    by (destruct l as [|[| |]]; exact H).
  destruct (fexp F32.prec F32.emax (Zdigits2 m + e) - e); simpl; auto.
  apply iter_shr_1_nonneg, H0.
Qed.

Lemma round_nearest_even_nonneg (m : Z) (l : location) :
  0 <= m -> 0 <= round_nearest_even m l.
Proof.
  intros H. destruct l as [|[| |]]; simpl; try lia.
  destruct (Z.even m); lia.
Qed.

(** Rounding a non-negative mantissa with a clear sign bit never yields
    NaN or a negative number. *)
Lemma binary_round_aux_nonneg (mx ex : Z) (lx : location) :
  0 <= mx ->
  F32.leb F32.zero (binary_round_aux F32.prec F32.emax false mx ex lx) = true.
Proof.
  intros H. unfold binary_round_aux.
  pose proof (shr_fexp_nonneg mx ex lx H) as H1.
  destruct (shr_fexp F32.prec F32.emax mx ex lx) as [mrs' e']; simpl in H1.
  pose proof (shr_fexp_nonneg
                (round_nearest_even (shr_m mrs') (loc_of_shr_record mrs'))
                e' loc_Exact (round_nearest_even_nonneg _ _ H1)) as H2.
  destruct (shr_fexp F32.prec F32.emax _ e' loc_Exact) as [mrs'' e''];
    simpl in H2.
  destruct (shr_m mrs'') as [|m|m]; try lia; try reflexivity.
  destruct (e'' <=? F32.emax - F32.prec); reflexivity.
Qed.

Lemma of_Z_nonneg (n : Z) : 0 <= n -> F32.leb F32.zero (F32.of_Z n) = true.
Proof.
  intros H. destruct n as [|p|p]; try lia; try reflexivity.
  unfold F32.of_Z, binary_normalize, binary_round.
  destruct (shl_align p 0 _) as [mz ez].
  apply binary_round_aux_nonneg. lia.
Qed.

End OfZ.

(** ** Clamping *)

Section Clamp.

(** [clamp] never returns NaN or a negative number, whatever [v] is. *)
Lemma clamp_lower (v bound : F32.t) : F32.leb F32.zero (clamp v bound) = true.
Proof.
  unfold clamp, F32.std_max.
  destruct (F32.ltb F32.zero (F32.std_min v bound)) eqn:E.
  - apply ltb_leb, E.
  - reflexivity.
Qed.

Lemma clamp_upper (v bound : F32.t) :
  F32.leb F32.zero bound = true -> F32.leb (clamp v bound) bound = true.
Proof.
  intros Hb. destruct (leb_not_nan _ _ Hb) as [_ Hn].
  unfold clamp, F32.std_max.
  destruct (F32.ltb F32.zero (F32.std_min v bound)) eqn:E; [|exact Hb].
  unfold F32.std_min in *.
  destruct (F32.ltb bound v) eqn:E'.
  - apply leb_refl, Hn.
  - apply not_ltb_leb; auto. eapply ltb_not_nan_r, E.
Qed.

(** Clamping keeps the order of two values that are ordered. *)
Lemma clamp_monotone (a b bound : F32.t) :
  F32.is_nan bound = false ->
  F32.leb a b = true -> F32.leb (clamp a bound) (clamp b bound) = true.
Proof.
  intros Hn Hab. destruct (leb_not_nan _ _ Hab) as [Ha Hb].
  assert (Hm : F32.leb (F32.std_min a bound) (F32.std_min b bound) = true).
  { unfold F32.std_min.
    destruct (F32.ltb bound a) eqn:Ea.
    - rewrite (ltb_leb_trans _ _ _ Ea Hab). apply leb_refl, Hn.
    - destruct (F32.ltb bound b) eqn:Eb; [|exact Hab].
      apply not_ltb_leb; auto. }
  unfold clamp, F32.std_max.
  destruct (F32.ltb F32.zero (F32.std_min a bound)) eqn:Ea.
  - rewrite (ltb_leb_trans _ _ _ Ea Hm). exact Hm.
  - destruct (F32.ltb F32.zero (F32.std_min b bound)) eqn:Eb.
    + apply ltb_leb, Eb.
    + reflexivity.
Qed.

End Clamp.

(** ** The [try] block, step by step *)

Section Steps.

Lemma bind_ok {A B} (m : M A) (k : A -> M B) (fr fr' : Frame) (b : B) :
  bind m k fr = (Ok b, fr') ->
  exists a fr1, m fr = (Ok a, fr1) /\ k a fr1 = (Ok b, fr').
Proof.
  unfold bind. destruct (m fr) as [[a|e] fr1]; intros H.
  - exists a, fr1. auto.
  - discriminate.
Qed.

Lemma lift_ok {A} (o : outcome A) (fr fr' : Frame) (a : A) :
  lift o fr = (Ok a, fr') -> o = Ok a /\ fr' = fr.
Proof. unfold lift. intros H. inversion H. auto. Qed.

Lemma keeps_ret {A} (a : A) : keeps_results (ret a).
Proof. intros fr. reflexivity. Qed.

Lemma keeps_lift {A} (o : outcome A) : keeps_results (lift o).
Proof. intros fr. reflexivity. Qed.

Lemma keeps_log (ev : Event) : keeps_results (log ev).
Proof. intros fr. reflexivity. Qed.

Lemma keeps_get_model_path : keeps_results get_model_path.
Proof. intros fr. reflexivity. Qed.

Lemma keeps_bind {A B} (m : M A) (k : A -> M B) :
  keeps_results m -> (forall a, keeps_results (k a)) -> keeps_results (bind m k).
Proof.
  intros Hm Hk fr. unfold bind. specialize (Hm fr).
  destruct (m fr) as [[a|e] fr1]; simpl in *.
  - rewrite Hk. exact Hm.
  - exact Hm.
Qed.

Lemma keeps_static_local {A} (get : Process -> option A)
    (set : A -> Process -> Process) (init : M A) :
  keeps_results init -> keeps_results (static_local get set init).
Proof.
  intros Hi fr. unfold static_local.
  destruct (get (proc fr)); [reflexivity|].
  specialize (Hi fr). destruct (init fr) as [[v|e] fr1]; exact Hi.
Qed.

Lemma keeps_fetch_names (get : Z -> outcome string) (fuel : nat) :
  forall i, keeps_results (fetch_names get fuel i).
Proof.
  induction fuel as [|fuel IH]; intros i; simpl.
  - apply keeps_ret.
  - apply keeps_bind; [apply keeps_lift | intros _; apply IH].
Qed.

Lemma fetch_names_frame (get : Z -> outcome string) (fuel : nat) :
  forall i fr, snd (fetch_names get fuel i fr) = fr.
Proof.
  induction fuel as [|fuel IH]; intros i fr; simpl; [reflexivity|].
  unfold bind, lift. destruct (get i); [apply IH | reflexivity].
Qed.

End Steps.

Create HintDb keeps.
#[local] Hint Resolve keeps_ret keeps_lift keeps_log keeps_get_model_path
  keeps_fetch_names : keeps.

Section PipelineFacts.

Variable DOC_CLASSES : list string.
Variable preprocessImage : Mat -> Z -> Z -> outcome (Mat * (F32.t * F32.t)).
Variable imageToBlob : Mat -> outcome (list F32.t).
Variable create_session : string -> outcome Session.
Variable cast_undefined : F32.t -> Z.

Lemma infer_keeps_results (image : Mat) :
  keeps_results (infer preprocessImage imageToBlob create_session image).
Proof.
  unfold infer.
  repeat first
    [ apply keeps_bind; [|intros ?]
    | apply keeps_static_local
    | solve [auto with keeps]
    | match goal with
      | |- keeps_results (match ?x with _ => _ end) => destruct x
      | |- keeps_results (let '(_, _) := ?x in _) => destruct x
      end ].
Qed.

(** A static that holds a name: initialising it changes neither the
    session, nor the log, nor the model path. *)
Lemma static_name_ok (get : Process -> option string)
    (set : string -> Process -> Process) (o : outcome string)
    (fr fr' : Frame) (v : string) :
  (forall x p, session (set x p) = session p /\ trace (set x p) = trace p
               /\ MODEL_PATH (set x p) = MODEL_PATH p) ->
  static_local get set (lift o) fr = (Ok v, fr') ->
  session (proc fr') = session (proc fr)
  /\ trace (proc fr') = trace (proc fr)
  /\ results fr' = results fr.
Proof.
  intros Hset. unfold static_local, lift.
  destruct (get (proc fr)).
  - intros H. inversion H. auto.
  - destruct o; intros H; inversion H; simpl.
    destruct (Hset v (proc fr)) as (? & ? & ?). auto.
Qed.

Lemma static_session_ok (fr fr' : Frame) (sess : Session) :
  static_local session set_session
    (path <- get_model_path ;;
     log (EvCreateSession path) ;;;
     lift (create_session path))%try fr = (Ok sess, fr') ->
  session (proc fr') = Some sess
  /\ results fr' = results fr
  /\ (session (proc fr) = Some sess /\ trace (proc fr') = trace (proc fr)
      \/ session (proc fr) = None
         /\ create_session (MODEL_PATH (proc fr)) = Ok sess
         /\ trace (proc fr') =
              trace (proc fr) ++ [EvCreateSession (MODEL_PATH (proc fr))]).
Proof.
  unfold static_local, bind, get_model_path, log, lift.
  destruct (session (proc fr)) eqn:E.
  - intros H. inversion H; subst. auto.
  - destruct (create_session (MODEL_PATH (proc fr))) eqn:E'; intros H;
      inversion H; subst; simpl. auto 6.
Qed.

(** What a successful run of steps 1 to 6 has done. *)
Lemma infer_ok (image : Mat) (fr fr' : Frame) (outputs : list Tensor)
    (is_l_model : bool) (scale_factor : F32.t * F32.t) :
  infer preprocessImage imageToBlob create_session image fr
    = (Ok (outputs, is_l_model, scale_factor), fr') ->
  exists sess resized_img blob out0 created,
    session (proc fr') = Some sess
    /\ (session (proc fr) = Some sess /\ created = []
        \/ session (proc fr) = None
           /\ create_session (MODEL_PATH (proc fr)) = Ok sess
           /\ created = [EvCreateSession (MODEL_PATH (proc fr))])
    /\ preprocessImage image 640 640 = Ok (resized_img, scale_factor)
    /\ imageToBlob resized_img = Ok blob
    /\ is_l_model = (GetInputCount sess =? 3)
    /\ Run sess
         (fst (submitted (GetInputCount sess) image blob scale_factor))
         (snd (submitted (GetInputCount sess) image blob scale_factor))
         [out0] = Ok outputs
    /\ trace (proc fr') =
         trace (proc fr) ++ created
         ++ [EvPreprocess image 640 640; EvImageToBlob resized_img;
             EvRun
               (fst (submitted (GetInputCount sess) image blob scale_factor))
               (snd (submitted (GetInputCount sess) image blob scale_factor))
               [out0]].
Proof.
  unfold infer. intros H.
  apply bind_ok in H. destruct H as (sess & fr1 & Hs & H).
  apply static_session_ok in Hs. destruct Hs as (Hs1 & Hr1 & Hc).
  apply bind_ok in H. destruct H as (n0 & fr2 & Hn & H).
  apply static_name_ok in Hn; [|intros; repeat split].
  destruct Hn as (Hs2 & Ht2 & Hr2).
  apply bind_ok in H. destruct H as ([] & fr3 & Hf & H).
  pose proof (fetch_names_frame (GetInputNameAllocated sess)
                (Z.to_nat (GetInputCount sess)) 0 fr2) as Hf'.
  rewrite Hf in Hf'. simpl in Hf'. subst fr3.
  apply bind_ok in H. destruct H as ([] & fr3 & Hg & H).
  pose proof (fetch_names_frame (GetOutputNameAllocated sess)
                (Z.to_nat (GetOutputCount sess)) 0 fr2) as Hg'.
  rewrite Hg in Hg'. simpl in Hg'. subst fr3.
  apply bind_ok in H. destruct H as (out0 & fr3 & Ho & H).
  apply static_name_ok in Ho; [|intros; repeat split].
  destruct Ho as (Hs3 & Ht3 & Hr3).
  apply bind_ok in H. destruct H as (out1 & fr4 & Ho1 & H).
  apply static_name_ok in Ho1; [|intros; repeat split].
  destruct Ho1 as (Hs4 & Ht4 & Hr4).
  apply bind_ok in H. destruct H as ([] & fr5 & Hl5 & H).
  inversion Hl5; subst fr5; clear Hl5.
  apply bind_ok in H. destruct H as ([resized_img sf] & fr6 & Hp & H).
  apply lift_ok in Hp. destruct Hp as (Hp & ->).
  apply bind_ok in H. destruct H as ([] & fr7 & Hl7 & H).
  inversion Hl7; subst fr7; clear Hl7.
  apply bind_ok in H. destruct H as (blob & fr8 & Hb & H).
  apply lift_ok in Hb. destruct Hb as (Hb & ->).
  exists sess, resized_img, blob, out0.
  unfold submitted.
  destruct (GetInputCount sess =? 3) eqn:E;
    apply bind_ok in H; destruct H as ([] & fr9 & Hl9 & H);
    inversion Hl9; subst fr9; clear Hl9;
    apply bind_ok in H; destruct H as (outs & fr10 & Hrun & H);
    apply lift_ok in Hrun; destruct Hrun as (Hrun & ->);
    inversion H; subst; clear H; simpl;
    (destruct Hc as [(Hc1 & Hc2)|(Hc1 & Hc2 & Hc3)];
     [exists []|exists [EvCreateSession (MODEL_PATH (proc fr))]]);
    repeat split; auto;
    try congruence;
    rewrite ?Ht4, ?Ht3, ?Ht2, ?Hc2, ?Hc3, <- ?app_assoc; simpl;
    try reflexivity.
Qed.

Local Abbreviation detect :=
  (detectDocLayout DOC_CLASSES preprocessImage imageToBlob create_session
     cast_undefined).
Local Abbreviation start p := {| proc := p; results := [] |}.

(** The row loop never throws; it appends the passing rows in order. *)
Lemma decode_rows_spec (output_data : list F32.t)
    (conf_threshold inv_scale_x inv_scale_y : F32.t) (image : Mat) :
  forall fuel i fr, 0 <= i ->
    decode_rows DOC_CLASSES cast_undefined fuel i output_data
      conf_threshold inv_scale_x inv_scale_y image fr
    = (Ok tt,
       {| proc := proc fr;
          results :=
            results fr
            ++ map (row_box DOC_CLASSES cast_undefined output_data
                      inv_scale_x inv_scale_y image)
                 (filter (row_passes DOC_CLASSES cast_undefined output_data
                            conf_threshold)
                    (map Z.of_nat (seq (Z.to_nat i) fuel))) |}).
Proof.
  induction fuel as [|fuel IH]; intros i fr Hi.
  - simpl. unfold ret. rewrite app_nil_r. destruct fr; reflexivity.
  - cbn [decode_rows seq map filter]. unfold bind at 1.
    rewrite Z2Nat.id by exact Hi.
    unfold row_passes at 1. rewrite Z.geb_leb.
    destruct (F32.geb (at_index output_data (i * 6 + 1)) conf_threshold
              && (0 <=? int_of_float cast_undefined
                          (at_index output_data (i * 6 + 0)))
              && (int_of_float cast_undefined
                    (at_index output_data (i * 6 + 0))
                  <? taxonomy_size DOC_CLASSES)).
    + unfold push_back at 1. rewrite IH by lia.
      replace (Z.to_nat (i + 1)) with (S (Z.to_nat i)) by lia.
      cbn [proc results map]. rewrite <- app_assoc. reflexivity.
    + unfold ret at 1. rewrite IH by lia.
      replace (Z.to_nat (i + 1)) with (S (Z.to_nat i)) by lia.
      reflexivity.
Qed.

Lemma decode_spec (image : Mat) (conf_threshold : F32.t)
    (outputs : list Tensor) (is_l_model : bool)
    (scale_factor : F32.t * F32.t) (fr : Frame) :
  decode DOC_CLASSES cast_undefined image conf_threshold outputs
    is_l_model scale_factor fr
  = (Ok tt,
     {| proc := proc fr;
        results :=
          results fr
          ++ decoded DOC_CLASSES cast_undefined image conf_threshold
               outputs is_l_model scale_factor |}).
Proof.
  unfold decode, decoded, row_indices.
  rewrite decode_rows_spec by lia. reflexivity.
Qed.

(** A call whose forward pass succeeded returns the decoded rows. *)
Lemma try_block_ok (image : Mat) (conf_threshold : F32.t) (p : Process)
    (outputs : list Tensor) (is_l_model : bool)
    (scale_factor : F32.t * F32.t) (fr' : Frame) :
  infer preprocessImage imageToBlob create_session image (start p)
    = (Ok (outputs, is_l_model, scale_factor), fr') ->
  try_block DOC_CLASSES preprocessImage imageToBlob create_session
    cast_undefined image conf_threshold (start p)
  = (Ok tt,
     {| proc := proc fr';
        results := decoded DOC_CLASSES cast_undefined image conf_threshold
                     outputs is_l_model scale_factor |}).
Proof.
  intros H. unfold try_block, bind. rewrite H, decode_spec.
  pose proof (infer_keeps_results image (start p)) as Hr.
  rewrite H in Hr. simpl in Hr. rewrite Hr. reflexivity.
Qed.

Lemma detect_ok (image : Mat) (conf_threshold : F32.t) (p : Process)
    (outputs : list Tensor) (is_l_model : bool)
    (scale_factor : F32.t * F32.t) (fr' : Frame) :
  empty image = false ->
  infer preprocessImage imageToBlob create_session image (start p)
    = (Ok (outputs, is_l_model, scale_factor), fr') ->
  detect image conf_threshold p
  = (decoded DOC_CLASSES cast_undefined image conf_threshold
       outputs is_l_model scale_factor, proc fr').
Proof.
  intros He H. unfold detectDocLayout. rewrite He.
  rewrite (try_block_ok _ _ _ _ _ _ _ H). reflexivity.
Qed.

(** A call whose steps 1 to 6 threw returns no detection. *)
Lemma detect_throw (image : Mat) (conf_threshold : F32.t) (p : Process)
    (e : exn) (fr' : Frame) :
  empty image = false ->
  infer preprocessImage imageToBlob create_session image (start p)
    = (Throw e, fr') ->
  detect image conf_threshold p = ([], proc fr').
Proof.
  intros He H. unfold detectDocLayout, try_block, bind. rewrite He, H.
  pose proof (infer_keeps_results image (start p)) as Hr.
  rewrite H in Hr. simpl in Hr. rewrite Hr.
  destruct e; reflexivity.
Qed.

Lemma detect_cases (image : Mat) (conf_threshold : F32.t) (p : Process) :
  fst (detect image conf_threshold p) = []
  \/ exists outputs is_l_model scale_factor,
       fst (detect image conf_threshold p)
       = decoded DOC_CLASSES cast_undefined image conf_threshold
           outputs is_l_model scale_factor.
Proof.
  destruct (empty image) eqn:He.
  - left. unfold detectDocLayout. rewrite He. reflexivity.
  - destruct (infer preprocessImage imageToBlob create_session image
                (start p)) as [[[[outputs is_l] sf]|e] fr'] eqn:H.
    + right. exists outputs, is_l, sf.
      rewrite (detect_ok _ _ _ _ _ _ _ He H). reflexivity.
    + left. rewrite (detect_throw _ _ _ _ _ He H). reflexivity.
Qed.

End PipelineFacts.

(** For a class table of any feasible length the cast of its size changes
    nothing. *)
Lemma taxonomy_size_small (DOC_CLASSES : list string) :
  Z.of_nat (List.length DOC_CLASSES) <= INT_MAX ->
  taxonomy_size DOC_CLASSES = Z.of_nat (List.length DOC_CLASSES).
Proof.
  unfold taxonomy_size, int_of_int64, INT_MAX. intros H.
  rewrite Z.mod_small; lia.
Qed.

(** ** Properties of [detectDocLayout] *)

Section Detection.

Variable DOC_CLASSES : list string.
Variable preprocessImage : Mat -> Z -> Z -> outcome (Mat * (F32.t * F32.t)).
Variable imageToBlob : Mat -> outcome (list F32.t).
Variable create_session : string -> outcome Session.
Variable cast_undefined : F32.t -> Z.

Local Abbreviation detect :=
  (detectDocLayout DOC_CLASSES preprocessImage imageToBlob create_session
     cast_undefined).
Local Abbreviation infer_from p image :=
  (infer preprocessImage imageToBlob create_session image
     {| proc := p; results := [] |}).

Lemma map_filter_flat_map {A B} (f : A -> B) (g : A -> bool) (l : list A) :
  map f (filter g l) = flat_map (fun a => if g a then [f a] else []) l.
Proof.
  induction l as [|a l IH]; simpl; [reflexivity|].
  destruct (g a); simpl; rewrite IH; reflexivity.
Qed.

Lemma in_decoded (image : Mat) (conf_threshold : F32.t)
    (outputs : list Tensor) (is_l_model : bool)
    (scale_factor : F32.t * F32.t) (b : DetectionBox) :
  In b (decoded DOC_CLASSES cast_undefined image conf_threshold outputs
          is_l_model scale_factor) ->
  exists output_data inv_scale_x inv_scale_y i,
    b = row_box DOC_CLASSES cast_undefined output_data
          inv_scale_x inv_scale_y image i.
Proof.
  unfold decoded. intros H. apply in_map_iff in H.
  destruct H as (i & <- & _). eauto.
Qed.

(** C2.  Once the forward pass has produced [outputs], the returned list is
    read off the data of [outputs[0]] row by row, six floats per row:
    row [i] takes its class id (truncated to an integer) from offset
    [i*6+0], its score from [i*6+1], and [x1], [y1], [x2], [y2] from
    [i*6+2] to [i*6+5]. *)
Theorem rows_read_as_class_score_box (image : Mat) (conf_threshold : F32.t)
    (p : Process) (outputs : list Tensor) (is_l_model : bool)
    (scale_factor : F32.t * F32.t) (fr' : Frame) :
  empty image = false ->
  infer_from p image = (Ok (outputs, is_l_model, scale_factor), fr') ->
  let output0 := nth 0 outputs {| shape := []; values := [] |} in
  let output_data := values output0 in
  let num_detections := int_of_int64 (nth 0 (shape output0) 0) in
  let inv_scale_x :=
    if is_l_model then F32.one else F32.div F32.one (fst scale_factor) in
  let inv_scale_y :=
    if is_l_model then F32.one else F32.div F32.one (snd scale_factor) in
  fst (detect image conf_threshold p)
  = flat_map
      (fun i =>
         let class_id :=
           int_of_float cast_undefined (at_index output_data (i * 6 + 0)) in
         let score := at_index output_data (i * 6 + 1) in
         if F32.geb score conf_threshold
            && (0 <=? class_id) && (class_id <? taxonomy_size DOC_CLASSES)
         then
           [{| x1 := clamp (F32.mul (at_index output_data (i * 6 + 2)) inv_scale_x)
                       (F32.of_Z (cols image));
               y1 := clamp (F32.mul (at_index output_data (i * 6 + 3)) inv_scale_y)
                       (F32.of_Z (rows image));
               x2 := clamp (F32.mul (at_index output_data (i * 6 + 4)) inv_scale_x)
                       (F32.of_Z (cols image));
               y2 := clamp (F32.mul (at_index output_data (i * 6 + 5)) inv_scale_y)
                       (F32.of_Z (rows image));
               score := score;
               class_id := class_id;
               class_name := nth (Z.to_nat class_id) DOC_CLASSES EmptyString |}]
         else [])
      (row_indices num_detections).
Proof.
  intros He H. cbv zeta.
  rewrite (detect_ok _ _ _ _ _ _ _ _ _ _ _ _ He H).
  unfold decoded. cbn [fst]. rewrite map_filter_flat_map. reflexivity.
Qed.

(** Multiplying by [1.0f] returns the operand, for every binary32 value. *)
Lemma mul_one (x : F32.t) : F32.valid x = true -> F32.mul x F32.one = x.
Proof.
  destruct x as [s|s| |s m e]; simpl; intros Hv;
    try (destruct s; reflexivity); try reflexivity.
  unfold F32.valid, valid_binary, bounded, canonical_mantissa in Hv.
  apply andb_prop in Hv. destruct Hv as [Hc He].
  apply Z.eqb_eq in Hc.
  unfold F32.mul, F32.one, SFmul.
  rewrite xorb_false_r, Pos.mul_comm.
  change (8388608 * m)%positive
    with (m~0~0~0~0~0~0~0~0~0~0~0~0~0~0~0~0~0~0~0~0~0~0~0)%positive.
  unfold binary_round_aux, shr_fexp.
  assert (Hd : Zdigits2 (Zpos (m~0~0~0~0~0~0~0~0~0~0~0~0~0~0~0~0~0~0~0~0~0~0~0))
               = Zpos (digits2_pos m) + 23).
  { cbn [Zdigits2 digits2_pos]. rewrite !Pos2Z.inj_succ. lia. }
  rewrite Hd.
  replace (Zpos (digits2_pos m) + 23 + (e + -23))
    with (Zpos (digits2_pos m) + e) by lia.
  rewrite Hc.
  replace (e - (e + -23)) with 23 by lia.
  cbv [shr shr_record_of_loc iter_pos shr_1 orb fst snd shr_m
       loc_of_shr_record round_nearest_even].
  replace (e + -23 + 23) with e by lia.
  cbv [Zdigits2]. rewrite Hc, Z.sub_diag.
  cbv [shr shr_record_of_loc shr_m].
  fold F32.emax F32.prec. rewrite He. reflexivity.
Qed.

(** C3.  Which tensors are submitted, and how coordinates are mapped back,
    depends on the session's declared input count alone.  With exactly 3
    inputs the forward pass receives [im_shape] (the original image's rows
    and columns as floats), [image], and [scale_factor] set to
    [(1.0, 1.0)], and each coordinate is multiplied by [1.0f], which leaves
    it as it is; with any other count it receives [image] and
    [scale_factor] holding the scale factor of the resize, and [x]
    coordinates are multiplied by [1/scale_factor[0]], [y] coordinates by
    [1/scale_factor[1]]. *)
Theorem schema_follows_input_count (image : Mat) (conf_threshold : F32.t)
    (p : Process) (outputs : list Tensor) (is_l_model : bool)
    (scale_factor : F32.t * F32.t) (fr' : Frame) :
  empty image = false ->
  infer_from p image = (Ok (outputs, is_l_model, scale_factor), fr') ->
  (exists sess resized_img blob out0 earlier,
     session (proc fr') = Some sess
     /\ preprocessImage image 640 640 = Ok (resized_img, scale_factor)
     /\ imageToBlob resized_img = Ok blob
     /\ let image_tensor := {| shape := [1; 3; 640; 640]; values := blob |} in
        let output0 := nth 0 outputs {| shape := []; values := [] |} in
        let kept :=
          filter (row_passes DOC_CLASSES cast_undefined (values output0)
                    conf_threshold)
            (row_indices (int_of_int64 (nth 0 (shape output0) 0))) in
        if GetInputCount sess =? 3 then
          trace (proc fr') =
            earlier
            ++ [EvRun ["im_shape"; "image"; "scale_factor"]%string
                  [{| shape := [1; 2];
                      values := [F32.of_Z (rows image); F32.of_Z (cols image)] |};
                   image_tensor;
                   {| shape := [1; 2]; values := [F32.one; F32.one] |}]
                  [out0]]
          /\ fst (detect image conf_threshold p) =
               map (row_box DOC_CLASSES cast_undefined (values output0)
                      F32.one F32.one image) kept
        else
          trace (proc fr') =
            earlier
            ++ [EvRun ["image"; "scale_factor"]%string
                  [image_tensor;
                   {| shape := [1; 2];
                      values := [fst scale_factor; snd scale_factor] |}]
                  [out0]]
          /\ fst (detect image conf_threshold p) =
               map (row_box DOC_CLASSES cast_undefined (values output0)
                      (F32.div F32.one (fst scale_factor))
                      (F32.div F32.one (snd scale_factor)) image) kept)
  /\ (forall x, F32.valid x = true -> F32.mul x F32.one = x).
Proof.
  intros He H. split; [|exact mul_one].
  destruct (infer_ok _ _ _ _ _ _ _ _ _ H)
    as (sess & resized & blob & out0 & created & Hs & _ & Hp & Hb & Hl & _ & Ht).
  exists sess, resized, blob, out0.
  exists (trace p ++ created
          ++ [EvPreprocess image 640 640; EvImageToBlob resized]).
  repeat split; try assumption.
  cbv zeta. rewrite (detect_ok _ _ _ _ _ _ _ _ _ _ _ _ He H).
  unfold decoded. cbn [fst]. rewrite Hl. simpl in Ht. rewrite Ht.
  unfold submitted.
  destruct (GetInputCount sess =? 3); cbn [fst snd];
    (split; [|reflexivity]);
    rewrite <- !app_assoc; reflexivity.
Qed.

(** C6.  Once the forward pass has produced [outputs], the [try] block ends
    without an exception and the returned list holds one box for each row
    with [score >= conf_threshold] and [0 <= class_id < taxonomy size], and
    none for any other row: a row failing either test is skipped and
    nothing else happens. *)
Theorem row_emitted_iff_score_and_class_pass (image : Mat)
    (conf_threshold : F32.t) (p : Process) (outputs : list Tensor)
    (is_l_model : bool) (scale_factor : F32.t * F32.t) (fr' : Frame) :
  empty image = false ->
  infer_from p image = (Ok (outputs, is_l_model, scale_factor), fr') ->
  let output0 := nth 0 outputs {| shape := []; values := [] |} in
  let output_data := values output0 in
  let class_id_of i :=
    int_of_float cast_undefined (at_index output_data (i * 6 + 0)) in
  let score_of i := at_index output_data (i * 6 + 1) in
  let inv_scale_x :=
    if is_l_model then F32.one else F32.div F32.one (fst scale_factor) in
  let inv_scale_y :=
    if is_l_model then F32.one else F32.div F32.one (snd scale_factor) in
  let emitted :=
    map (row_box DOC_CLASSES cast_undefined output_data
           inv_scale_x inv_scale_y image)
      (filter
         (fun i =>
            F32.geb (score_of i) conf_threshold
            && ((0 <=? class_id_of i)
                && (class_id_of i <? taxonomy_size DOC_CLASSES)))
         (row_indices (int_of_int64 (nth 0 (shape output0) 0)))) in
  try_block DOC_CLASSES preprocessImage imageToBlob create_session
    cast_undefined image conf_threshold {| proc := p; results := [] |}
  = (Ok tt, {| proc := proc fr'; results := emitted |})
  /\ detect image conf_threshold p = (emitted, proc fr').
Proof.
  intros He H. cbv zeta.
  assert (E : forall l,
             filter (fun i =>
                F32.geb (at_index (values (nth 0 outputs
                                             {| shape := []; values := [] |}))
                           (i * 6 + 1)) conf_threshold
                && ((0 <=? int_of_float cast_undefined
                             (at_index (values (nth 0 outputs
                                        {| shape := []; values := [] |}))
                                (i * 6 + 0)))
                    && (int_of_float cast_undefined
                          (at_index (values (nth 0 outputs
                                     {| shape := []; values := [] |}))
                             (i * 6 + 0))
                        <? taxonomy_size DOC_CLASSES))) l
             = filter (row_passes DOC_CLASSES cast_undefined
                         (values (nth 0 outputs {| shape := []; values := [] |}))
                         conf_threshold) l).
  { intros l. apply filter_ext. intros i. unfold row_passes.
    rewrite andb_assoc. reflexivity. }
  rewrite E. split.
  - exact (try_block_ok _ _ _ _ _ _ _ _ _ _ _ _ H).
  - exact (detect_ok _ _ _ _ _ _ _ _ _ _ _ _ He H).
Qed.

(** C8.  For an empty image the call returns the empty list at once: the
    process is left exactly as it was, so no session was created and
    nothing was preprocessed or run. *)
Theorem empty_image_returns_at_once (image : Mat) (conf_threshold : F32.t)
    (p : Process) :
  empty image = true -> detect image conf_threshold p = ([], p).
Proof.
  intros He. unfold detectDocLayout. rewrite He. reflexivity.
Qed.

(** C9 (as amended).  With [conf_threshold = 0] the returned list holds,
    once each and in row order, the boxes of the rows whose class id is in
    range and whose score is a number not below zero; rows with a negative
    or NaN score are left out.  Nothing is sorted. *)
Theorem zero_threshold_keeps_rows_in_order (image : Mat) (p : Process)
    (outputs : list Tensor) (is_l_model : bool)
    (scale_factor : F32.t * F32.t) (fr' : Frame) :
  empty image = false ->
  infer_from p image = (Ok (outputs, is_l_model, scale_factor), fr') ->
  let output0 := nth 0 outputs {| shape := []; values := [] |} in
  let output_data := values output0 in
  let class_id_of i :=
    int_of_float cast_undefined (at_index output_data (i * 6 + 0)) in
  let inv_scale_x :=
    if is_l_model then F32.one else F32.div F32.one (fst scale_factor) in
  let inv_scale_y :=
    if is_l_model then F32.one else F32.div F32.one (snd scale_factor) in
  fst (detect image F32.zero p)
  = map (row_box DOC_CLASSES cast_undefined output_data
           inv_scale_x inv_scale_y image)
      (filter
         (fun i =>
            ((0 <=? class_id_of i)
             && (class_id_of i <? taxonomy_size DOC_CLASSES))
            && F32.leb F32.zero (at_index output_data (i * 6 + 1)))
         (row_indices (int_of_int64 (nth 0 (shape output0) 0)))).
Proof.
  intros He H. cbv zeta.
  rewrite (detect_ok _ _ _ _ _ _ _ _ _ _ _ _ He H).
  unfold decoded. cbn [fst]. f_equal. apply filter_ext. intros i.
  unfold row_passes.
  assert (G : forall x, F32.geb x F32.zero = F32.leb F32.zero x).
  { intros x. unfold F32.geb, F32.leb, SFleb.
    rewrite (SFcompare_antisym F32.zero x).
    destruct (SFcompare x F32.zero) as [[| |]|]; reflexivity. }
  rewrite G, <- andb_assoc, andb_comm. reflexivity.
Qed.

End Detection.

(** ** Properties of the serializers *)

Section Serializers.

Variable format_general : Z -> F32.t -> string.

Lemma append_assoc (a b c : string) : ((a ++ b) ++ c = a ++ (b ++ c))%string.
Proof. induction a as [|ch a IH]; simpl; [reflexivity|]. rewrite IH. reflexivity. Qed.

Lemma append_nil_r (a : string) : (a ++ EmptyString = a)%string.
Proof. induction a as [|ch a IH]; simpl; [reflexivity|]. rewrite IH. reflexivity. Qed.

Lemma skipn_cons_nth (detections : list DetectionBox) :
  forall n, (n < List.length detections)%nat ->
    skipn n detections
    = nth n detections default_box :: skipn (S n) detections.
Proof.
  induction detections as [|b l IH]; intros n Hn; simpl in Hn; [lia|].
  destruct n as [|n]; [reflexivity|].
  simpl. apply IH. lia.
Qed.

(** The loop writes the detection objects from index [i] on, separated by
    commas, each with its coordinates at [coord_precision] decimals and its
    score at 4, whatever format state the stream is in on entry. *)
Lemma put_detections_str (coord_precision : Z)
    (detections : list DetectionBox) :
  Z.of_nat (List.length detections) < 2 ^ 64 ->
  forall fuel i json,
    0 <= i -> (Z.to_nat i + fuel = List.length detections)%nat ->
    str (put_detections format_general coord_precision fuel i detections json)
    = (str json
       ++ concat "," (map (render_box coord_precision 4)
                        (skipn (Z.to_nat i) detections)))%string.
Proof.
  intros Hlen. induction fuel as [|fuel IH]; intros i json Hi Hf.
  - rewrite skipn_all2 by lia. simpl. rewrite append_nil_r. reflexivity.
  - cbn [put_detections].
    rewrite (skipn_cons_nth detections (Z.to_nat i)) by lia.
    assert (Hs : size_minus_1 detections = Z.of_nat (List.length detections) - 1).
    { unfold size_minus_1. apply Z.mod_small. lia. }
    rewrite Hs, IH by lia.
    replace (Z.to_nat (i + 1)) with (S (Z.to_nat i)) by lia.
    cbn [map concat].
    destruct fuel as [|fuel].
    + rewrite skipn_all2 by lia.
      replace (i <? Z.of_nat (List.length detections) - 1) with false
        by (symmetry; apply Z.ltb_ge; lia).
      cbn [map concat put fixed setprecision put_float put_int str
           floatfield_fixed precision].
      unfold render_box. rewrite append_nil_r, !append_assoc. reflexivity.
    + replace (i <? Z.of_nat (List.length detections) - 1) with true
        by (symmetry; apply Z.ltb_lt; lia).
      rewrite (skipn_cons_nth detections (S (Z.to_nat i))) by lia.
      cbn [map concat put fixed setprecision put_float put_int str
           floatfield_fixed precision].
      unfold render_box. rewrite !append_assoc. reflexivity.
Qed.

(** C10.  All three serializers print each detection's score in fixed
    notation with 4 decimals, while the coordinates of the same detection
    are printed with 2 decimals by [detectionsToJson] and with 1 decimal by
    the responses of [detectLayout] and [detectLayoutFromBytes]. *)
Theorem score_printed_with_four_decimals (detections : list DetectionBox)
    (inference_time : Z) (image : Mat) (width height : Z) :
  Z.of_nat (List.length detections) < 2 ^ 64 ->
  let count := string_of_Z (Z.of_nat (List.length detections)) in
  detectionsToJson format_general detections
  = ("{" ++ key "detections" ++ "["
         ++ concat "," (map (render_box 2 4) detections)
         ++ "]," ++ key "count" ++ count ++ "}")%string
  /\ detectLayout_response format_general detections inference_time image
     = ("{" ++ key "detections" ++ "["
            ++ concat "," (map (render_box 1 4) detections)
            ++ "]," ++ key "count" ++ count ++ ","
            ++ key "inference_time_ms" ++ string_of_Z inference_time ++ ","
            ++ key "image_width" ++ string_of_Z (cols image) ++ ","
            ++ key "image_height" ++ string_of_Z (rows image) ++ "}")%string
  /\ detectLayoutFromBytes_response format_general detections inference_time
       width height
     = ("{" ++ key "detections" ++ "["
            ++ concat "," (map (render_box 1 4) detections)
            ++ "]," ++ key "count" ++ count ++ ","
            ++ key "inference_time_ms" ++ string_of_Z inference_time ++ ","
            ++ key "image_width" ++ string_of_Z width ++ ","
            ++ key "image_height" ++ string_of_Z height ++ "}")%string.
Proof.
  intros Hlen. cbv zeta.
  unfold detectionsToJson, detectLayout_response,
    detectLayoutFromBytes_response.
  cbn [put put_int str floatfield_fixed precision].
  rewrite !(put_detections_str _ _ Hlen) by (simpl; lia).
  cbn [put str new_ostringstream Z.to_nat skipn].
  rewrite !append_assoc. cbn [append]. repeat split; reflexivity.
Qed.

End Serializers.

(** ** The 1280x960 scenario *)

Section ScenarioFacts.

Variable DOC_CLASSES : list string.
Variable resize : Mat -> Z -> Z -> Mat.
Variable imageToBlob : Mat -> outcome (list F32.t).
Variable create_session : string -> outcome Session.
Variable cast_undefined : F32.t -> Z.

(** C5 (as amended).  For an image 1280 wide and 960 high resized to
    640x640 the scale factor is [(0.5, 0.6666667)], the second component
    being the binary32 quotient [640/960]; under the two-input schema the
    raw row [class_id=2, score=0.87, x1=100, y1=50, x2=300, y2=200] with
    [conf_threshold = 0.5] decodes to the single box
    [x1=200, y1=75, x2=600, y2=300, score=0.87, class_id=2,
    class_name=taxonomy[2]]. *)
Theorem scenario_1280x960_decodes (image : Mat) (p : Process)
    (scale_factor : F32.t * F32.t) (fr' : Frame) :
  cols image = 1280 -> rows image = 960 -> empty image = false ->
  2 < taxonomy_size DOC_CLASSES ->
  infer (preprocessImage_spec resize) imageToBlob create_session image
    {| proc := p; results := [] |}
  = (Ok ([{| shape := [1; 6]; values := Scenario.row |}], false, scale_factor),
     fr') ->
  preprocessImage_spec resize image 640 640
  = Ok (resize image 640 640, (Stub.f32 1 2, Stub.f32 2 3))
  /\ scale_factor = (Stub.f32 1 2, Stub.f32 2 3)
  /\ fst (detectDocLayout DOC_CLASSES (preprocessImage_spec resize)
            imageToBlob create_session cast_undefined image
            Scenario.half p)
     = [{| x1 := F32.of_Z 200; y1 := F32.of_Z 75;
           x2 := F32.of_Z 600; y2 := F32.of_Z 300;
           score := Stub.f32 87 100; class_id := 2;
           class_name := nth 2 DOC_CLASSES EmptyString |}].
Proof.
  intros Hc Hr He Ht H.
  assert (Hsf : preprocessImage_spec resize image 640 640
                = Ok (resize image 640 640, (Stub.f32 1 2, Stub.f32 2 3))).
  { unfold preprocessImage_spec. rewrite Hc, Hr. reflexivity. }
  assert (Es : scale_factor = (Stub.f32 1 2, Stub.f32 2 3)).
  { destruct (infer_ok _ _ _ _ _ _ _ _ _ H)
      as (sess & resized & blob & out0 & created & _ & _ & Hp & _).
    rewrite Hsf in Hp. congruence. }
  split; [exact Hsf|]. split; [exact Es|].
  rewrite (detect_ok _ _ _ _ _ _ _ _ _ _ _ _ He H). subst scale_factor.
  unfold decoded. cbn [fst snd nth shape values].
  change (row_indices (int_of_int64 1)) with [0].
  assert (Hpass : row_passes DOC_CLASSES cast_undefined Scenario.row
                    Scenario.half 0 = true).
  { unfold row_passes.
    change (int_of_float cast_undefined (at_index Scenario.row (0 * 6 + 0)))
      with 2.
    apply Z.ltb_lt in Ht. rewrite Ht. reflexivity. }
  cbn [filter]. rewrite Hpass. cbn [map]. unfold row_box.
  rewrite Hc, Hr.
  change (int_of_float cast_undefined (at_index Scenario.row (0 * 6 + 0)))
    with 2.
  f_equal; f_equal; vm_compute; reflexivity.
Qed.

End ScenarioFacts.

(** ** Worked examples *)

Section Examples.

Import Stub.

Local Abbreviation run model image conf :=
  (detectDocLayout classes stretch blob (load model) cast_x86 image conf cold).

(** C1, refuted as stated: on an 800x600 picture a row with raw
    [x1 = 300] and [x2 = 100] is returned with [x1 = 300] and [x2 = 100],
    so [x1 <= x2] fails for a returned box. *)
Lemma crossed_box_is_returned_unordered :
  ~ (forall b,
        In b (fst (run Scenario.crossed_model (picture 800 600) Scenario.half)) ->
        F32.leb F32.zero (x1 b) = true /\ F32.leb (x1 b) (x2 b) = true
        /\ F32.leb (x2 b) (F32.of_Z 800) = true
        /\ F32.leb F32.zero (y1 b) = true /\ F32.leb (y1 b) (y2 b) = true
        /\ F32.leb (y2 b) (F32.of_Z 600) = true).
Proof.
  intros H.
  destruct (H Scenario.crossed_box) as (_ & Hx & _).
  - vm_compute. left. reflexivity.
  - vm_compute in Hx. discriminate Hx.
Qed.

Lemma rows_read_as_class_score_box_witness :
  empty Scenario.image = false
  /\ fst (run Scenario.m_model Scenario.image Scenario.half)
     = [Scenario.decoded_box].
Proof.
  split; [reflexivity|].
  rewrite (rows_read_as_class_score_box classes stretch blob
             (load Scenario.m_model) cast_x86 Scenario.image Scenario.half
             cold _ _ _ _ eq_refl eq_refl).
  vm_compute. reflexivity.
Defined.

Lemma schema_follows_input_count_witness :
  empty (picture 800 600) = false
  /\ GetInputCount Scenario.crossed_model = 3
  /\ fst (run Scenario.crossed_model (picture 800 600) Scenario.half)
     = map (row_box classes cast_x86 Scenario.crossed_row F32.one F32.one
              (picture 800 600)) [0].
Proof.
  split; [reflexivity|]. split; [reflexivity|].
  destruct (proj1 (schema_follows_input_count classes stretch blob
                     (load Scenario.crossed_model) cast_x86 (picture 800 600)
                     Scenario.half cold _ _ _ _ eq_refl eq_refl))
    as (sess & resized & tensor & out0 & earlier & Hs & _ & _ & Hrest).
  injection Hs as <-.
  exact (proj2 Hrest).
Defined.

(** C4, refuted as stated: a model declaring four inputs, and one declaring
    a single input, are run with the tensors [image] and [scale_factor] of
    the two-input schema, and the box decoded from the answer is
    returned. *)
Lemma four_and_one_input_models_are_run :
  let two_input_call :=
    EvRun ["image"; "scale_factor"]%string
      [{| shape := [1; 3; 640; 640]; values := [] |};
       {| shape := [1; 2]; values := [f32 1 2; f32 2 3] |}]
      ["fetch_name_0"%string] in
  (GetInputCount Scenario.four_input_model = 4
   /\ fst (run Scenario.four_input_model Scenario.image Scenario.half) <> []
   /\ last (trace (snd (run Scenario.four_input_model Scenario.image
                          Scenario.half)))
           (EvCreateSession EmptyString) = two_input_call)
  /\ (GetInputCount Scenario.one_input_model = 1
      /\ fst (run Scenario.one_input_model Scenario.image Scenario.half) <> []
      /\ last (trace (snd (run Scenario.one_input_model Scenario.image
                             Scenario.half)))
              (EvCreateSession EmptyString) = two_input_call).
Proof.
  cbv zeta. split; (split; [reflexivity|]; split;
    [vm_compute; intros H; discriminate H | vm_compute; reflexivity]).
Qed.

(** C5, refuted as stated: for the 1280x960 picture the vertical scale is
    [640/960], not [0.5], and the row decodes to [y1 = 75], [y2 = 300],
    not to the box [x1=200, y1=100, x2=600, y2=400]; reading 1280x960 as
    rows by columns does not give that box either. *)
Lemma claimed_scenario_box_is_not_decoded :
  preprocessImage_spec resize Scenario.image 640 640
    <> Ok (resize Scenario.image 640 640, (Scenario.half, Scenario.half))
  /\ fst (run Scenario.m_model Scenario.image Scenario.half)
     <> [Scenario.claimed_box]
  /\ fst (run Scenario.m_model (picture 960 1280) Scenario.half)
     <> [Scenario.claimed_box].
Proof.
  repeat split; vm_compute; intros H; discriminate H.
Qed.

Lemma scenario_1280x960_decodes_witness :
  cols Scenario.image = 1280 /\ rows Scenario.image = 960
  /\ 2 < taxonomy_size classes
  /\ fst (run Scenario.m_model Scenario.image Scenario.half)
     = [Scenario.decoded_box].
Proof.
  assert (Ht : 2 < taxonomy_size classes) by (vm_compute; reflexivity).
  split; [reflexivity|]. split; [reflexivity|]. split; [exact Ht|].
  exact (proj2 (proj2
           (scenario_1280x960_decodes classes resize blob
              (load Scenario.m_model) cast_x86 Scenario.image cold _ _
              eq_refl eq_refl eq_refl Ht eq_refl))).
Defined.

Lemma row_emitted_iff_score_and_class_pass_witness :
  empty Scenario.image = false
  /\ run Scenario.m_model Scenario.image Scenario.half
     = ([Scenario.decoded_box],
        proc (snd (infer stretch blob (load Scenario.m_model) Scenario.image
                     {| proc := cold; results := [] |})))
  /\ fst (run Scenario.m_model Scenario.image (f32 9 10)) = [].
Proof.
  split; [reflexivity|]. split.
  - rewrite (proj2 (row_emitted_iff_score_and_class_pass classes stretch blob
                      (load Scenario.m_model) cast_x86 Scenario.image
                      Scenario.half cold _ _ _ _ eq_refl eq_refl)).
    vm_compute. reflexivity.
  - rewrite (proj2 (row_emitted_iff_score_and_class_pass classes stretch blob
                      (load Scenario.m_model) cast_x86 Scenario.image
                      (f32 9 10) cold _ _ _ _ eq_refl eq_refl)).
    vm_compute. reflexivity.
Defined.

Lemma empty_image_returns_at_once_witness :
  empty no_picture = true
  /\ detectDocLayout classes stretch blob (load Scenario.m_model) cast_x86
       no_picture Scenario.half cold = ([], cold).
Proof.
  split; [reflexivity|].
  exact (empty_image_returns_at_once classes stretch blob
           (load Scenario.m_model) cast_x86 no_picture Scenario.half cold
           eq_refl).
Defined.

(** C9, refuted as stated: at threshold 0 a row of class 0, which is in
    range, is not returned when its score is [-0.5], nor when its score is
    NaN. *)
Lemma in_range_row_dropped_at_zero_threshold :
  ~ (forall i,
        In i (row_indices 1) ->
        0 <= int_of_float cast_x86
               (at_index Scenario.negative_score_row (i * 6 + 0))
          < taxonomy_size classes ->
        In (row_box classes cast_x86 Scenario.negative_score_row
              F32.one F32.one (picture 800 600) i)
           (fst (run (model l_inputs
                        (Ok [rows_tensor 1 Scenario.negative_score_row]))
                   (picture 800 600) F32.zero)))
  /\ ~ (forall i,
          In i (row_indices 1) ->
          0 <= int_of_float cast_x86
                 (at_index Scenario.nan_score_row (i * 6 + 0))
            < taxonomy_size classes ->
          In (row_box classes cast_x86 Scenario.nan_score_row
                F32.one F32.one (picture 800 600) i)
             (fst (run (model l_inputs
                          (Ok [rows_tensor 1 Scenario.nan_score_row]))
                     (picture 800 600) F32.zero))).
Proof.
  split; intros H;
    (assert (H0 : In 0 (row_indices 1)) by (left; reflexivity));
    specialize (H 0 H0); vm_compute in H; apply H;
    (split; [intros X; discriminate X | reflexivity]).
Qed.

(** What [cast_undefined] stands for: a row whose class id is NaN is
    skipped where the conversion yields [INT_MIN], and returned as class 0
    where it yields 0. *)
Example nan_class_id_by_target :
  let nan_class_row :=
    [S754_nan; f32 9 10; F32.of_Z 10; F32.of_Z 10; F32.of_Z 50; F32.of_Z 50] in
  let nan_class_model := model l_inputs (Ok [rows_tensor 1 nan_class_row]) in
  fst (detectDocLayout classes stretch blob (load nan_class_model) cast_x86
         (picture 800 600) Scenario.half cold) = []
  /\ map class_id
       (fst (detectDocLayout classes stretch blob (load nan_class_model)
               cast_arm (picture 800 600) Scenario.half cold)) = [0].
Proof. split; vm_compute; reflexivity. Qed.

Lemma zero_threshold_keeps_rows_in_order_witness :
  empty (picture 800 600) = false
  /\ fst (run Scenario.crossed_model (picture 800 600) F32.zero)
     = [Scenario.crossed_box].
Proof.
  split; [reflexivity|].
  rewrite (zero_threshold_keeps_rows_in_order classes stretch blob
             (load Scenario.crossed_model) cast_x86 (picture 800 600) cold
             _ _ _ _ eq_refl eq_refl).
  vm_compute. reflexivity.
Defined.

Lemma score_printed_with_four_decimals_witness :
  Z.of_nat (List.length [Scenario.decoded_box]) < 2 ^ 64
  /\ detectionsToJson Scenario.general_unused [Scenario.decoded_box]
     = ("{" ++ key "detections" ++ "[{"
            ++ key "x1" ++ "200.00," ++ key "y1" ++ "75.00,"
            ++ key "x2" ++ "600.00," ++ key "y2" ++ "300.00,"
            ++ key "score" ++ "0.8700," ++ key "class_id" ++ "2,"
            ++ key "class_name" ++ dquote ++ "text" ++ dquote
            ++ "}]," ++ key "count" ++ "1}")%string.
Proof.
  assert (Hl : Z.of_nat (List.length [Scenario.decoded_box]) < 2 ^ 64)
    by (vm_compute; reflexivity).
  split; [exact Hl|].
  rewrite (proj1 (score_printed_with_four_decimals Scenario.general_unused
                    [Scenario.decoded_box] 0 Scenario.image 0 0 Hl)).
  vm_compute. reflexivity.
Defined.

End Examples.

(** ** Further order facts *)

Section FloatOrderMore.

Ltac compare_cases :=
  repeat match goal with
    | |- context [PosDef.Pos.compare_cont Eq ?a ?b] =>
        change (PosDef.Pos.compare_cont Eq a b) with (Pos.compare a b)
    | H : context [PosDef.Pos.compare_cont Eq ?a ?b] |- _ =>
        change (PosDef.Pos.compare_cont Eq a b) with (Pos.compare a b) in H
    end;
  repeat match goal with
    | H : context [(?a ?= ?b)%Z] |- _ => destruct (Z.compare_spec a b)
    | |- context [(?a ?= ?b)%Z] => destruct (Z.compare_spec a b)
    | H : context [(?a ?= ?b)%positive] |- _ => destruct (Pos.compare_spec a b)
    | |- context [(?a ?= ?b)%positive] => destruct (Pos.compare_spec a b)
    end;
  simpl in *; subst; try discriminate; try reflexivity; try lia.

Lemma leb_trans (a b c : F32.t) :
  F32.leb a b = true -> F32.leb b c = true -> F32.leb a c = true.
Proof.
  unfold F32.leb, SFleb.
  destruct a as [sa|sa| |sa ma ea], b as [sb|sb| |sb mb eb],
           c as [sc|sc| |sc mc ec]; simpl;
    try discriminate; try reflexivity;
    repeat match goal with s : bool |- _ => destruct s end; simpl;
    try discriminate; try reflexivity;
    intros H1 H2; compare_cases.
Qed.

(** [a >= b] is [b <= a]. *)
Lemma geb_leb (a b : F32.t) : F32.geb a b = F32.leb b a.
Proof.
  unfold F32.geb, F32.leb, SFleb. rewrite (SFcompare_antisym b a).
  destruct (SFcompare a b) as [[| |]|]; reflexivity.
Qed.

Lemma geb_nan_r (a : F32.t) : F32.geb a S754_nan = false.
Proof. destruct a; reflexivity. Qed.

Lemma leb_not_ltb (a b : F32.t) : F32.leb a b = true -> F32.ltb b a = false.
Proof.
  unfold F32.leb, F32.ltb, SFleb, SFltb. rewrite (SFcompare_antisym b a).
  destruct (SFcompare a b) as [[| |]|]; simpl; congruence.
Qed.

End FloatOrderMore.

(** ** What every returned box satisfies, and how the threshold acts *)

Section Boxes.

Variable DOC_CLASSES : list string.
Variable preprocessImage : Mat -> Z -> Z -> outcome (Mat * (F32.t * F32.t)).
Variable imageToBlob : Mat -> outcome (list F32.t).
Variable create_session : string -> outcome Session.
Variable cast_undefined : F32.t -> Z.

Local Abbreviation detect :=
  (detectDocLayout DOC_CLASSES preprocessImage imageToBlob create_session
     cast_undefined).
Local Abbreviation infer_from p image :=
  (infer preprocessImage imageToBlob create_session image
     {| proc := p; results := [] |}).

Lemma filter_map_swap {A B} (f : A -> B) (g : B -> bool) (l : list A) :
  filter g (map f l) = map f (filter (fun a => g (f a)) l).
Proof.
  induction l as [|a l IH]; simpl; [reflexivity|].
  destruct (g (f a)); simpl; rewrite IH; reflexivity.
Qed.

Lemma filter_twice {A} (f g : A -> bool) (l : list A) :
  filter g (filter f l) = filter (fun a => f a && g a) l.
Proof.
  induction l as [|a l IH]; simpl; [reflexivity|].
  destruct (f a); simpl; [destruct (g a)|]; rewrite IH; reflexivity.
Qed.

Lemma filter_none {A} (f : A -> bool) (l : list A) :
  (forall a, f a = false) -> filter f l = [].
Proof.
  intros H. induction l as [|a l IH]; simpl; [reflexivity|].
  rewrite H. exact IH.
Qed.

(** X1.  Every box [detectDocLayout] returns has a score that is a number
    not below the threshold, a class id inside [0, taxonomy size), and as
    class name the entry of the class table at that id. *)
Theorem returned_box_passes_threshold_and_names_its_class (image : Mat)
    (conf_threshold : F32.t) (p : Process) (b : DetectionBox) :
  In b (fst (detect image conf_threshold p)) ->
  F32.leb conf_threshold (score b) = true
  /\ F32.is_nan (score b) = false
  /\ 0 <= class_id b < taxonomy_size DOC_CLASSES
  /\ class_name b = nth (Z.to_nat (class_id b)) DOC_CLASSES EmptyString
  /\ (Z.of_nat (List.length DOC_CLASSES) <= INT_MAX ->
      nth_error DOC_CLASSES (Z.to_nat (class_id b)) = Some (class_name b)).
Proof.
  intros Hin.
  destruct (detect_cases DOC_CLASSES preprocessImage imageToBlob
              create_session cast_undefined image conf_threshold p)
    as [E|(outputs & is_l & sf & E)]; rewrite E in Hin; [destruct Hin|].
  unfold decoded in Hin. apply in_map_iff in Hin.
  destruct Hin as (i & <- & Hi). apply filter_In in Hi.
  destruct Hi as [_ Hp]. unfold row_passes in Hp.
  apply andb_prop in Hp. destruct Hp as [Hp Hlt].
  apply andb_prop in Hp. destruct Hp as [Hs Hge].
  rewrite geb_leb in Hs. apply Z.leb_le in Hge. apply Z.ltb_lt in Hlt.
  cbn [score class_id class_name row_box].
  split; [exact Hs|]. split; [exact (proj2 (leb_not_nan _ _ Hs))|].
  split; [lia|]. split; [reflexivity|].
  intros Hlen. rewrite (taxonomy_size_small _ Hlen) in Hlt.
  apply nth_error_nth'. lia.
Qed.

(** X2.  Raising the threshold only removes boxes: for [t1 <= t2] the list
    returned at [t2] is the list returned at [t1] with the boxes scoring
    below [t2] taken out, the others staying in place. *)
Theorem higher_threshold_filters_lower_result (image : Mat)
    (t1 t2 : F32.t) (p : Process) :
  F32.leb t1 t2 = true ->
  fst (detect image t2 p)
  = filter (fun b => F32.geb (score b) t2) (fst (detect image t1 p)).
Proof.
  intros Ht. destruct (empty image) eqn:He.
  - unfold detectDocLayout. rewrite He. reflexivity.
  - destruct (infer_from p image) as [[[[outputs is_l] sf]|e] fr'] eqn:H.
    + rewrite !(detect_ok _ _ _ _ _ _ _ _ _ _ _ _ He H). cbn [fst].
      unfold decoded. rewrite filter_map_swap, filter_twice.
      f_equal. apply filter_ext. intros i.
      unfold row_passes. cbn [score row_box].
      destruct (F32.geb (at_index _ (i * 6 + 1)) t2) eqn:E2.
      * rewrite geb_leb in E2. rewrite geb_leb, (leb_trans _ _ _ Ht E2).
        simpl. rewrite andb_true_r. reflexivity.
      * rewrite andb_false_r. reflexivity.
    + rewrite !(detect_throw _ _ _ _ _ _ _ _ _ _ He H). reflexivity.
Qed.

(** X3.  With a NaN threshold nothing is returned, whatever the model
    answers. *)
Theorem nan_threshold_returns_nothing (image : Mat) (p : Process) :
  fst (detect image S754_nan p) = [].
Proof.
  destruct (detect_cases DOC_CLASSES preprocessImage imageToBlob
              create_session cast_undefined image S754_nan p)
    as [E|(outputs & is_l & sf & E)]; rewrite E; [reflexivity|].
  unfold decoded. rewrite filter_none; [reflexivity|].
  intros i. unfold row_passes. rewrite geb_nan_r. reflexivity.
Qed.

(** X4.  A call returns at most as many boxes as the first dimension of
    the output tensor announces once it is cast to [int]; a count that is
    zero or negative after the cast gives the empty list. *)
Theorem no_more_boxes_than_rows (image : Mat) (conf_threshold : F32.t)
    (p : Process) (outputs : list Tensor) (is_l_model : bool)
    (scale_factor : F32.t * F32.t) (fr' : Frame) :
  empty image = false ->
  infer_from p image = (Ok (outputs, is_l_model, scale_factor), fr') ->
  let num_detections :=
    int_of_int64
      (nth 0 (shape (nth 0 outputs {| shape := []; values := [] |})) 0) in
  Z.of_nat (List.length (fst (detect image conf_threshold p)))
    <= Z.max 0 num_detections
  /\ (num_detections <= 0 -> fst (detect image conf_threshold p) = []).
Proof.
  intros He H. cbv zeta.
  rewrite (detect_ok _ _ _ _ _ _ _ _ _ _ _ _ He H). cbn [fst].
  unfold decoded, row_indices. split.
  - rewrite length_map.
    eapply Z.le_trans.
    + apply inj_le, filter_length_le.
    + rewrite length_map, length_seq. lia.
  - intros Hn. replace (Z.to_nat _) with 0%nat by lia. reflexivity.
Qed.

End Boxes.

(** ** What a call does to the process *)

Section Later.

Lemma later_refl (p : Process) : later p p.
Proof.
  unfold later, kept. repeat split; auto.
  exists []. rewrite app_nil_r. auto.
Qed.

Lemma later_trans (p p' p'' : Process) :
  later p p' -> later p' p'' -> later p p''.
Proof.
  unfold later, kept.
  intros (Hm & Hs & Hi & Ho & Ho' & a & Ht & Hc)
         (Hm' & Hs' & Hi' & Ho2 & Ho2' & a' & Ht' & Hc').
  repeat split; auto; try congruence.
  exists (a ++ a'). split.
  - rewrite Ht', Ht, app_assoc. reflexivity.
  - intros Hn. rewrite forallb_app, (Hc Hn). simpl. apply Hc'.
    destruct (session p) as [s|] eqn:E; [|congruence].
    rewrite (Hs s eq_refl). discriminate.
Qed.

Lemma later_emit (ev : Event) (p : Process) :
  is_create ev = false -> later p (emit ev p).
Proof.
  intros H. unfold later, kept. repeat split; auto.
  exists [ev]. simpl. rewrite H. auto.
Qed.

Lemma keeps_later_ret {A} (a : A) : keeps_later (ret a).
Proof. intros fr. apply later_refl. Qed.

Lemma keeps_later_lift {A} (o : outcome A) : keeps_later (lift o).
Proof. intros fr. apply later_refl. Qed.

Lemma keeps_later_log (ev : Event) : is_create ev = false -> keeps_later (log ev).
Proof. intros H fr. apply later_emit, H. Qed.

Lemma keeps_later_push_back (b : DetectionBox) : keeps_later (push_back b).
Proof. intros fr. apply later_refl. Qed.

Lemma keeps_later_bind {A B} (m : M A) (k : A -> M B) :
  keeps_later m -> (forall a, keeps_later (k a)) -> keeps_later (bind m k).
Proof.
  intros Hm Hk fr. unfold bind. specialize (Hm fr).
  destruct (m fr) as [[a|e] fr1]; simpl in *.
  - eapply later_trans; [exact Hm | apply Hk].
  - exact Hm.
Qed.

Lemma bind_assoc {A B C} (m : M A) (k : A -> M B) (d : B -> M C) (fr : Frame) :
  bind (bind m k) d fr = bind m (fun a => bind (k a) d) fr.
Proof. unfold bind. destruct (m fr) as [[a|e] fr1]; reflexivity. Qed.

Lemma bind_later_from {A B} (m : M A) (k : A -> M B) (fr fr1 : Frame) (a : A) :
  m fr = (Ok a, fr1) -> keeps_later (k a) ->
  later (proc fr1) (proc (snd (bind m k fr))).
Proof. intros H Hk. unfold bind. rewrite H. apply Hk. Qed.

Lemma keeps_later_fetch_names (get : Z -> outcome string) (fuel : nat) :
  forall i, keeps_later (fetch_names get fuel i).
Proof.
  intros i fr. rewrite fetch_names_frame. apply later_refl.
Qed.

(** Initialising a name static that is unset. *)
Lemma keeps_later_static_name (get : Process -> option string)
    (set : string -> Process -> Process) (o : outcome string) :
  (forall v p, get p = None -> later p (set v p)) ->
  keeps_later (static_local get set (lift o)).
Proof.
  intros Hset fr. unfold static_local, lift.
  destruct (get (proc fr)) eqn:E; [apply later_refl|].
  destruct o; simpl; [apply Hset, E | apply later_refl].
Qed.

Lemma later_set_input_name (v : string) (p : Process) :
  input_name p = None -> later p (set_input_name v p).
Proof.
  intros H. unfold later, kept. simpl. repeat split; auto; try congruence.
  exists []. rewrite app_nil_r. auto.
Qed.

Lemma later_set_output_name_0 (v : string) (p : Process) :
  output_name_0 p = None -> later p (set_output_name_0 v p).
Proof.
  intros H. unfold later, kept. simpl. repeat split; auto; try congruence.
  exists []. rewrite app_nil_r. auto.
Qed.

Lemma later_set_output_name_1 (v : string) (p : Process) :
  output_name_1 p = None -> later p (set_output_name_1 v p).
Proof.
  intros H. unfold later, kept. simpl. repeat split; auto; try congruence.
  exists []. rewrite app_nil_r. auto.
Qed.

Lemma keeps_later_static_session (create_session : string -> outcome Session) :
  keeps_later
    (static_local session set_session
       (path <- get_model_path ;;
        log (EvCreateSession path) ;;;
        lift (create_session path))%try).
Proof.
  intros fr. unfold static_local, bind, get_model_path, log, lift.
  destruct (session (proc fr)) eqn:E; [apply later_refl|].
  destruct (create_session (MODEL_PATH (proc fr))); simpl;
    unfold later, kept; simpl; repeat split; auto; try congruence;
    exists [EvCreateSession (MODEL_PATH (proc fr))]; split; auto; congruence.
Qed.

End Later.

Create HintDb later.
#[local] Hint Resolve keeps_later_ret keeps_later_lift keeps_later_push_back
  keeps_later_fetch_names keeps_later_static_session
  later_set_input_name later_set_output_name_0 later_set_output_name_1
  : later.

Ltac keeps_later_steps :=
  repeat first
    [ apply keeps_later_bind; [|intros ?]
    | apply keeps_later_static_name; solve [auto with later]
    | apply keeps_later_log; reflexivity
    | solve [auto with later]
    | match goal with
      | |- keeps_later (match ?x with _ => _ end) => destruct x
      | |- keeps_later (let '(_, _) := ?x in _) => destruct x
      | |- keeps_later (if ?c then _ else _) => destruct c
      end ].

Section Statics.

Variable DOC_CLASSES : list string.
Variable preprocessImage : Mat -> Z -> Z -> outcome (Mat * (F32.t * F32.t)).
Variable imageToBlob : Mat -> outcome (list F32.t).
Variable create_session : string -> outcome Session.
Variable cast_undefined : F32.t -> Z.

Local Abbreviation detect :=
  (detectDocLayout DOC_CLASSES preprocessImage imageToBlob create_session
     cast_undefined).

Lemma infer_keeps_later (image : Mat) :
  keeps_later (infer preprocessImage imageToBlob create_session image).
Proof. unfold infer. keeps_later_steps. Qed.

Lemma decode_rows_keeps_later (output_data : list F32.t)
    (conf_threshold inv_scale_x inv_scale_y : F32.t) (image : Mat)
    (fuel : nat) :
  forall i,
    keeps_later
      (decode_rows DOC_CLASSES cast_undefined fuel i output_data
         conf_threshold inv_scale_x inv_scale_y image).
Proof.
  induction fuel as [|fuel IH]; intros i; simpl.
  - apply keeps_later_ret.
  - apply keeps_later_bind; [|intros _; apply IH].
    match goal with |- keeps_later (if ?c then _ else _) => destruct c end;
      auto with later.
Qed.

Lemma decode_keeps_later (image : Mat) (conf_threshold : F32.t)
    (outputs : list Tensor) (is_l_model : bool)
    (scale_factor : F32.t * F32.t) :
  keeps_later
    (decode DOC_CLASSES cast_undefined image conf_threshold outputs
       is_l_model scale_factor).
Proof. unfold decode. apply decode_rows_keeps_later. Qed.

Lemma try_block_keeps_later (image : Mat) (conf_threshold : F32.t) :
  keeps_later
    (try_block DOC_CLASSES preprocessImage imageToBlob create_session
       cast_undefined image conf_threshold).
Proof.
  unfold try_block. apply keeps_later_bind; [apply infer_keeps_later|].
  intros [[outputs is_l] sf]. apply decode_keeps_later.
Qed.

(** The process a call leaves is the one the [try] block leaves. *)
Lemma detect_process (image : Mat) (conf_threshold : F32.t) (p : Process) :
  empty image = false ->
  snd (detect image conf_threshold p)
  = proc (snd (try_block DOC_CLASSES preprocessImage imageToBlob
                 create_session cast_undefined image conf_threshold
                 {| proc := p; results := [] |})).
Proof.
  intros He. unfold detectDocLayout. rewrite He.
  destruct (try_block _ _ _ _ _ _ _ _) as [[[]|[w|w|w]] fr]; reflexivity.
Qed.

Lemma detect_later (image : Mat) (conf_threshold : F32.t) (p : Process) :
  later p (snd (detect image conf_threshold p)).
Proof.
  destruct (empty image) eqn:He.
  - unfold detectDocLayout. rewrite He. apply later_refl.
  - rewrite (detect_process _ _ _ He).
    apply (try_block_keeps_later image conf_threshold
             {| proc := p; results := [] |}).
Qed.

(** X5.  A call never changes the configured model path, never replaces a
    static that is already set (the session and the three cached names),
    and only appends to the log of outside calls; when the session is
    already there, it creates none. *)
Theorem call_keeps_statics_and_path (image : Mat) (conf_threshold : F32.t)
    (p : Process) :
  let p' := snd (detect image conf_threshold p) in
  MODEL_PATH p' = MODEL_PATH p
  /\ (forall s, session p = Some s -> session p' = Some s)
  /\ (forall n, input_name p = Some n -> input_name p' = Some n)
  /\ (forall n, output_name_0 p = Some n -> output_name_0 p' = Some n)
  /\ (forall n, output_name_1 p = Some n -> output_name_1 p' = Some n)
  /\ exists added,
       trace p' = trace p ++ added
       /\ (session p <> None ->
           forall path, ~ In (EvCreateSession path) added).
Proof.
  destruct (detect_later image conf_threshold p)
    as (Hm & Hs & Hi & Ho & Ho' & added & Ht & Hc).
  cbv zeta. repeat split; auto.
  exists added. split; [exact Ht|].
  intros Hn path Hin. specialize (Hc Hn).
  rewrite forallb_forall in Hc. specialize (Hc _ Hin). discriminate Hc.
Qed.

(** X6.  A session that could not be created is not remembered: the call
    returns the empty list, the statics stay as they were, and the only
    outside call logged is the attempt; the next call attempts the creation
    again. *)
Theorem failed_load_is_retried (image image' : Mat)
    (conf_threshold conf_threshold' : F32.t) (p : Process) (e : exn) :
  empty image = false -> empty image' = false ->
  session p = None ->
  create_session (MODEL_PATH p) = Throw e ->
  let attempt := EvCreateSession (MODEL_PATH p) in
  detect image conf_threshold p = ([], emit attempt p)
  /\ detect image' conf_threshold' (emit attempt p)
     = ([], emit attempt (emit attempt p)).
Proof.
  intros He He' Hs Hc. cbv zeta.
  assert (G : forall img conf q,
             empty img = false -> session q = None ->
             MODEL_PATH q = MODEL_PATH p ->
             detect img conf q = ([], emit (EvCreateSession (MODEL_PATH p)) q)).
  { intros img conf q Hq Hsq Hmq.
    unfold detectDocLayout, try_block, infer, bind, static_local,
      get_model_path, log, lift.
    rewrite Hq. cbn [proc results]. rewrite Hsq, Hmq, Hc.
    destruct e; reflexivity. }
  split; apply G; auto.
Qed.

(** X7.  A session that was created is remembered even when a later step
    of the same call fails: after the call the session static holds it, the
    log shows the one creation first, and no other creation follows. *)
Theorem created_session_is_cached (image : Mat) (conf_threshold : F32.t)
    (p : Process) (sess : Session) :
  empty image = false ->
  session p = None ->
  create_session (MODEL_PATH p) = Ok sess ->
  let p' := snd (detect image conf_threshold p) in
  session p' = Some sess
  /\ exists rest,
       trace p' = trace p ++ EvCreateSession (MODEL_PATH p) :: rest
       /\ forall path, ~ In (EvCreateSession path) rest.
Proof.
  intros He Hs Hc. cbv zeta. rewrite (detect_process _ _ _ He).
  unfold try_block, infer. rewrite bind_assoc.
  set (fr1 := {| proc := set_session sess
                           (emit (EvCreateSession (MODEL_PATH p)) p);
                 results := [] |}).
  assert (Hk : later (proc fr1)
                 (proc (snd (try_block DOC_CLASSES preprocessImage imageToBlob
                               create_session cast_undefined image
                               conf_threshold {| proc := p; results := [] |})))).
  { unfold try_block, infer. rewrite bind_assoc.
    eapply bind_later_from.
    - unfold static_local, bind, get_model_path, log, lift.
      cbn [proc results]. rewrite Hs, Hc. reflexivity.
    - apply keeps_later_bind; [keeps_later_steps|].
      intros [[outputs is_l] sf]. apply decode_keeps_later. }
  unfold try_block, infer in Hk. rewrite bind_assoc in Hk.
  destruct Hk as (_ & Hk & _ & _ & _ & added & Ht & Hn).
  split; [apply Hk; reflexivity|].
  exists added. split.
  - rewrite Ht. simpl. rewrite <- app_assoc. reflexivity.
  - intros path Hin.
    assert (Hf : forallb (fun ev => negb (is_create ev)) added = true)
      by (apply Hn; discriminate).
    rewrite forallb_forall in Hf. specialize (Hf _ Hin). discriminate Hf.
Qed.

End Statics.

(** ** The model path is read for the creation of the session only *)

Section PathBlind.

Lemma path_blind_ret {A} (a : A) : path_blind (ret a).
Proof. intros q fr. reflexivity. Qed.

Lemma path_blind_lift {A} (o : outcome A) : path_blind (lift o).
Proof. intros q fr. reflexivity. Qed.

Lemma path_blind_log (ev : Event) : path_blind (log ev).
Proof. intros q fr. reflexivity. Qed.

Lemma path_blind_push_back (b : DetectionBox) : path_blind (push_back b).
Proof. intros q fr. reflexivity. Qed.

Lemma path_blind_bind {A B} (m : M A) (k : A -> M B) :
  path_blind m -> (forall a, path_blind (k a)) -> path_blind (bind m k).
Proof.
  intros Hm Hk q fr. unfold bind. rewrite Hm.
  destruct (m fr) as [[a|e] fr1]; cbn [fst snd]; [apply Hk | reflexivity].
Qed.

Lemma path_blind_fetch_names (get : Z -> outcome string) (fuel : nat) :
  forall i, path_blind (fetch_names get fuel i).
Proof.
  induction fuel as [|fuel IH]; intros i; simpl.
  - apply path_blind_ret.
  - apply path_blind_bind; [apply path_blind_lift | intros _; apply IH].
Qed.

Lemma path_blind_static_name (get : Process -> option string)
    (set : string -> Process -> Process) (o : outcome string) :
  (forall q p, get (with_path q p) = get p) ->
  (forall q v p, set v (with_path q p) = with_path q (set v p)) ->
  path_blind (static_local get set (lift o)).
Proof.
  intros Hget Hset q fr. unfold static_local, lift, with_path_frame.
  cbn [proc results]. rewrite Hget.
  destruct (get (proc fr)); [reflexivity|].
  destruct o; cbn [fst snd proc results]; [rewrite Hset|]; reflexivity.
Qed.

(** With the session static set, the first step hands it on and does
    nothing else. *)
Lemma bind_static_session_set {B} (init : M Session)
    (k : Session -> M B) (fr : Frame) (sess : Session) :
  session (proc fr) = Some sess ->
  bind (static_local session set_session init) k fr = k sess fr.
Proof. intros H. unfold bind, static_local. rewrite H. reflexivity. Qed.

End PathBlind.

Create HintDb blind.
#[local] Hint Resolve path_blind_ret path_blind_lift path_blind_log
  path_blind_push_back path_blind_fetch_names : blind.

Ltac path_blind_steps :=
  repeat first
    [ apply path_blind_bind; [|intros ?]
    | apply path_blind_static_name; reflexivity
    | solve [auto with blind]
    | match goal with
      | |- path_blind (match ?x with _ => _ end) => destruct x
      | |- path_blind (let '(_, _) := ?x in _) => destruct x
      | |- path_blind (if ?c then _ else _) => destruct c
      end ].

Section PathOnce.

Variable DOC_CLASSES : list string.
Variable preprocessImage : Mat -> Z -> Z -> outcome (Mat * (F32.t * F32.t)).
Variable imageToBlob : Mat -> outcome (list F32.t).
Variable create_session : string -> outcome Session.
Variable cast_undefined : F32.t -> Z.

Local Abbreviation detect :=
  (detectDocLayout DOC_CLASSES preprocessImage imageToBlob create_session
     cast_undefined).

Lemma decode_path_blind (image : Mat) (conf_threshold : F32.t)
    (outputs : list Tensor) (is_l_model : bool)
    (scale_factor : F32.t * F32.t) :
  path_blind
    (decode DOC_CLASSES cast_undefined image conf_threshold outputs
       is_l_model scale_factor).
Proof.
  unfold decode.
  generalize 0 at 2. generalize (Z.to_nat (int_of_int64
    (nth 0 (shape (nth 0 outputs {| shape := []; values := [] |})) 0))).
  intros fuel. induction fuel as [|fuel IH]; intros i; simpl.
  - apply path_blind_ret.
  - apply path_blind_bind; [|intros _; apply IH].
    match goal with |- path_blind (if ?c then _ else _) => destruct c end;
      auto with blind.
Qed.

Lemma try_block_path_blind (image : Mat) (conf_threshold : F32.t)
    (path : string) (fr : Frame) (sess : Session) :
  session (proc fr) = Some sess ->
  try_block DOC_CLASSES preprocessImage imageToBlob create_session
    cast_undefined image conf_threshold (with_path_frame path fr)
  = (fst (try_block DOC_CLASSES preprocessImage imageToBlob create_session
            cast_undefined image conf_threshold fr),
     with_path_frame path
       (snd (try_block DOC_CLASSES preprocessImage imageToBlob
               create_session cast_undefined image conf_threshold fr))).
Proof.
  intros Hs. unfold try_block, infer. rewrite !bind_assoc.
  rewrite (bind_static_session_set _ _ fr sess Hs).
  rewrite (bind_static_session_set _ _ (with_path_frame path fr) sess Hs).
  match goal with
  | |- ?m (with_path_frame path fr) = _ =>
      assert (Hb : path_blind m);
      [ apply path_blind_bind; [path_blind_steps|];
        intros [[outputs is_l] sf]; apply decode_path_blind
      | apply Hb ]
  end.
Qed.

(** X8.  Once the session static is set, a call does not look at the
    configured model path: with any other path it returns the same
    detections and leaves the same process, up to that path. *)
Theorem model_path_unused_once_session_exists (image : Mat)
    (conf_threshold : F32.t) (p : Process) (sess : Session) (path : string) :
  session p = Some sess ->
  detect image conf_threshold (with_path path p)
  = (fst (detect image conf_threshold p),
     with_path path (snd (detect image conf_threshold p))).
Proof.
  intros Hs. unfold detectDocLayout.
  destruct (empty image); [reflexivity|].
  change {| proc := with_path path p; results := [] |}
    with (with_path_frame path {| proc := p; results := [] |}).
  rewrite (try_block_path_blind image conf_threshold path
             {| proc := p; results := [] |} sess Hs).
  destruct (try_block _ _ _ _ _ _ _ _) as [[[]|[w|w|w]] fr]; reflexivity.
Qed.

End PathOnce.

(** ** The names a call looks up *)

Section Names.

Variable DOC_CLASSES : list string.
Variable preprocessImage : Mat -> Z -> Z -> outcome (Mat * (F32.t * F32.t)).
Variable imageToBlob : Mat -> outcome (list F32.t).
Variable create_session : string -> outcome Session.
Variable cast_undefined : F32.t -> Z.

Local Abbreviation detect :=
  (detectDocLayout DOC_CLASSES preprocessImage imageToBlob create_session
     cast_undefined).
Local Abbreviation infer_from p image :=
  (infer preprocessImage imageToBlob create_session image
     {| proc := p; results := [] |}).

Lemma name_at_0 (names : list string) (n : string) :
  name_at names 0 = Ok n <-> nth_error names 0 = Some n.
Proof.
  unfold name_at. simpl. destruct names as [|a l]; simpl; split; congruence.
Qed.

Lemma static_session_exact (fr fr' : Frame) (sess : Session) :
  static_local session set_session
    (path <- get_model_path ;;
     log (EvCreateSession path) ;;;
     lift (create_session path))%try fr = (Ok sess, fr') ->
  (session (proc fr) = Some sess
   \/ session (proc fr) = None
      /\ create_session (MODEL_PATH (proc fr)) = Ok sess)
  /\ input_name (proc fr') = input_name (proc fr)
  /\ output_name_0 (proc fr') = output_name_0 (proc fr).
Proof.
  unfold static_local, bind, get_model_path, log, lift.
  destruct (session (proc fr)) eqn:E.
  - intros H. inversion H; subst. auto.
  - destruct (create_session (MODEL_PATH (proc fr))) eqn:E'; intros H;
      inversion H; subst; simpl. auto.
Qed.

Lemma static_name_exact (get : Process -> option string)
    (set : string -> Process -> Process) (o : outcome string)
    (fr fr' : Frame) (v : string) :
  static_local get set (lift o) fr = (Ok v, fr') ->
  (get (proc fr) = Some v /\ fr' = fr)
  \/ (get (proc fr) = None /\ o = Ok v
      /\ fr' = {| proc := set v (proc fr); results := results fr |}).
Proof.
  unfold static_local, lift. destruct (get (proc fr)).
  - intros H. inversion H. auto.
  - destruct o; intros H; inversion H. auto.
Qed.

(** Where the names of a successful run come from. *)
Lemma infer_ok_names (image : Mat) (fr fr' : Frame) (outputs : list Tensor)
    (is_l_model : bool) (scale_factor : F32.t * F32.t) :
  infer preprocessImage imageToBlob create_session image fr
    = (Ok (outputs, is_l_model, scale_factor), fr') ->
  exists sess out0,
    (session (proc fr) = Some sess
     \/ session (proc fr) = None
        /\ create_session (MODEL_PATH (proc fr)) = Ok sess)
    /\ (input_name (proc fr) = None ->
        exists n, nth_error (input_names sess) 0 = Some n)
    /\ (output_name_0 (proc fr) = None ->
        nth_error (output_names sess) 0 = Some out0)
    /\ (forall v, output_name_0 (proc fr) = Some v -> out0 = v)
    /\ exists earlier names tensors,
         trace (proc fr') = earlier ++ [EvRun names tensors [out0]].
Proof.
  unfold infer. intros H.
  apply bind_ok in H. destruct H as (sess & fr1 & Hs & H).
  apply static_session_exact in Hs. destruct Hs as (Hs & Hi1 & Ho1).
  apply bind_ok in H. destruct H as (n0 & fr2 & Hn & H).
  apply static_name_exact in Hn.
  apply bind_ok in H. destruct H as ([] & fr3 & Hf & H).
  pose proof (fetch_names_frame (GetInputNameAllocated sess)
                (Z.to_nat (GetInputCount sess)) 0 fr2) as Hf'.
  rewrite Hf in Hf'. simpl in Hf'. subst fr3.
  apply bind_ok in H. destruct H as ([] & fr3 & Hg & H).
  pose proof (fetch_names_frame (GetOutputNameAllocated sess)
                (Z.to_nat (GetOutputCount sess)) 0 fr2) as Hg'.
  rewrite Hg in Hg'. simpl in Hg'. subst fr3.
  apply bind_ok in H. destruct H as (out0 & fr3 & Ho & H).
  apply static_name_exact in Ho.
  exists sess, out0.
  assert (Ho2 : output_name_0 (proc fr2) = output_name_0 (proc fr)).
  { destruct Hn as [(_ & ->)|(_ & _ & ->)]; simpl; congruence. }
  split; [exact Hs|]. split; [|split; [|split]].
  - intros Hnone. exists n0. apply name_at_0.
    destruct Hn as [(Hn & _)|(_ & Hn & _)]; [congruence | exact Hn].
  - intros Hnone. apply name_at_0.
    destruct Ho as [(Ho & _)|(_ & Ho & _)]; [congruence | exact Ho].
  - intros v Hv. destruct Ho as [(Ho & _)|(Ho & _)]; congruence.
  - clear Hn Ho Hs Hi1 Ho1 Ho2.
    apply bind_ok in H. destruct H as (out1 & fr4 & _ & H).
    apply bind_ok in H. destruct H as ([] & fr5 & _ & H).
    apply bind_ok in H. destruct H as ([resized_img sf] & fr6 & _ & H).
    apply bind_ok in H. destruct H as ([] & fr7 & _ & H).
    apply bind_ok in H. destruct H as (blob & fr8 & _ & H).
    destruct (GetInputCount sess =? 3);
      apply bind_ok in H; destruct H as ([] & fr9 & Hl9 & H);
      inversion Hl9; subst fr9; clear Hl9;
      apply bind_ok in H; destruct H as (outs & fr10 & Hrun & H);
      apply lift_ok in Hrun; destruct Hrun as (Hrun & ->);
      inversion H; subst; clear H; simpl; eauto.
Qed.

(** X9.  A successful run asks the forward pass for one output only.  On a
    process whose output-name static is unset it is the first output the
    session declares; otherwise it is the name the static holds, whatever
    the session declares. *)
Theorem one_output_is_requested (image : Mat) (p : Process)
    (outputs : list Tensor) (is_l_model : bool)
    (scale_factor : F32.t * F32.t) (fr' : Frame) :
  infer_from p image = (Ok (outputs, is_l_model, scale_factor), fr') ->
  exists sess out0 earlier names tensors,
    session (proc fr') = Some sess
    /\ trace (proc fr') = earlier ++ [EvRun names tensors [out0]]
    /\ (output_name_0 p = None -> nth_error (output_names sess) 0 = Some out0)
    /\ (forall v, output_name_0 p = Some v -> out0 = v).
Proof.
  intros H.
  destruct (infer_ok_names _ _ _ _ _ _ H)
    as (sess & out0 & Hs & _ & Hnone & Hsome & earlier & names & tensors & Ht).
  destruct (infer_ok _ _ _ _ _ _ _ _ _ H)
    as (sess' & resized & blob & out0' & created & Hs' & Hc & _).
  exists sess, out0, earlier, names, tensors.
  assert (sess' = sess).
  { cbn [proc] in Hs, Hc.
    destruct Hs as [Hs|(Hs & Hs2)], Hc as [(Hc & _)|(Hc & Hc2 & _)];
      congruence. }
  subst sess'. cbn [proc] in Hnone, Hsome. auto.
Qed.

(** X10.  A session that declares no input, or no output, yields the empty
    list when the matching name static is unset: the lookup of name 0
    fails inside the [try] block. *)
Theorem model_without_names_returns_nothing (image : Mat)
    (conf_threshold : F32.t) (p : Process) (sess : Session) :
  session p = Some sess
  \/ session p = None /\ create_session (MODEL_PATH p) = Ok sess ->
  input_name p = None /\ input_names sess = []
  \/ output_name_0 p = None /\ output_names sess = [] ->
  fst (detect image conf_threshold p) = [].
Proof.
  intros Hs Hn. destruct (empty image) eqn:He.
  - unfold detectDocLayout. rewrite He. reflexivity.
  - destruct (infer_from p image) as [[[[outputs is_l] sf]|e] fr'] eqn:H.
    + exfalso.
      destruct (infer_ok_names _ _ _ _ _ _ H)
        as (sess' & out0 & Hs' & Hi & Ho & _).
      cbn [proc] in Hs', Hi, Ho.
      assert (sess' = sess).
      { destruct Hs as [Hs|(Hs & Hs2)], Hs' as [Hs'|(Hs' & Hs2')];
          congruence. }
      subst sess'.
      destruct Hn as [(Hn & Hl)|(Hn & Hl)].
      * destruct (Hi Hn) as (n & Hx). rewrite Hl in Hx. discriminate Hx.
      * specialize (Ho Hn). rewrite Hl in Ho. discriminate Ho.
    + rewrite (detect_throw _ _ _ _ _ _ _ _ _ _ He H). reflexivity.
Qed.

End Names.

(** ** Clamping and conversions, value by value *)

Section Values.

Lemma ltb_nan_r (a : F32.t) : F32.ltb a S754_nan = false.
Proof. destruct a; reflexivity. Qed.

(** A value above zero and not above the bound is kept. *)
Lemma clamp_inside (v bound : F32.t) :
  F32.ltb F32.zero v = true -> F32.leb v bound = true -> clamp v bound = v.
Proof.
  intros H0 H. unfold clamp, F32.std_max, F32.std_min.
  rewrite (leb_not_ltb _ _ H), H0. reflexivity.
Qed.

(** X11.  What the clamp of one coordinate returns: [+0] for NaN and for
    every value not above zero, the value itself when it is above zero and
    not above the bound, and the bound when the value is above a bound that
    is itself above zero. *)
Theorem clamp_by_cases (v bound : F32.t) :
  (F32.is_nan v = true -> clamp v bound = F32.zero)
  /\ (F32.leb v F32.zero = true -> clamp v bound = F32.zero)
  /\ (F32.ltb F32.zero v = true -> F32.leb v bound = true ->
      clamp v bound = v)
  /\ (F32.ltb bound v = true -> F32.ltb F32.zero bound = true ->
      clamp v bound = bound).
Proof.
  unfold clamp, F32.std_max, F32.std_min. repeat split.
  - intros H. destruct v; try discriminate H.
    rewrite ltb_nan_r, ltb_nan_r. reflexivity.
  - intros H. pose proof (leb_not_ltb _ _ H) as H0.
    destruct (F32.ltb bound v) eqn:E.
    + destruct (F32.ltb F32.zero bound) eqn:E'; [|reflexivity].
      rewrite (ltb_leb_trans _ _ _ E' (ltb_leb _ _ E)) in H0. discriminate H0.
    + rewrite H0. reflexivity.
  - intros H0 H. fold (F32.std_min v bound).
    fold (F32.std_max F32.zero (F32.std_min v bound)).
    exact (clamp_inside v bound H0 H).
  - intros H H0. rewrite H, H0. reflexivity.
Qed.

Variable DOC_CLASSES : list string.
Variable cast_undefined : F32.t -> Z.


(** Bounds of a mantissa by its number of binary digits. *)
Lemma digits2_pos_bounds (m : positive) :
  2 ^ (Zpos (digits2_pos m) - 1) <= Zpos m < 2 ^ Zpos (digits2_pos m).
Proof.
  induction m as [m IH|m IH|]; cbn [digits2_pos].
  - rewrite Pos2Z.inj_succ, Pos2Z.inj_xI.
    replace (Z.succ (Zpos (digits2_pos m)) - 1)
      with (Z.succ (Zpos (digits2_pos m) - 1)) by lia.
    rewrite !Z.pow_succ_r by lia.
    generalize dependent (2 ^ (Zpos (digits2_pos m) - 1)).
    generalize (2 ^ Zpos (digits2_pos m)). intros; lia.
  - rewrite Pos2Z.inj_succ. change (Zpos m~0) with (2 * Zpos m).
    replace (Z.succ (Zpos (digits2_pos m)) - 1)
      with (Z.succ (Zpos (digits2_pos m) - 1)) by lia.
    rewrite !Z.pow_succ_r by lia.
    generalize dependent (2 ^ (Zpos (digits2_pos m) - 1)).
    generalize (2 ^ Zpos (digits2_pos m)). intros; lia.
  - simpl. lia.
Qed.

Lemma iter_xO_value (k m : positive) :
  Zpos (Pos.iter xO m k) = Zpos m * 2 ^ Zpos k.
Proof.
  induction k as [|k IH] using Pos.peano_ind.
  - simpl. lia.
  - rewrite Pos.iter_succ, Pos2Z.inj_xO, IH, Pos2Z.inj_succ,
      Z.pow_succ_r by lia. lia.
Qed.

Lemma iter_xO_digits (k m : positive) :
  Zpos (digits2_pos (Pos.iter xO m k)) = Zpos (digits2_pos m) + Zpos k.
Proof.
  induction k as [|k IH] using Pos.peano_ind.
  - simpl. lia.
  - rewrite Pos.iter_succ. cbn [digits2_pos].
    rewrite Pos2Z.inj_succ, IH, Pos2Z.inj_succ. lia.
Qed.

(** A mantissa of exactly 24 digits with an exponent in range is kept by
    the rounding. *)
Lemma binary_round_aux_canonical (s : bool) (m : positive) (e : Z) :
  Zpos (digits2_pos m) = 24 -> -149 <= e <= 104 ->
  binary_round_aux F32.prec F32.emax s (Zpos m) e loc_Exact
  = S754_finite s m e.
Proof.
  intros Hd He.
  assert (Hf : fexp F32.prec F32.emax (Zdigits2 (Zpos m) + e) - e = 0).
  { unfold fexp, emin, F32.prec, F32.emax. cbn [Zdigits2]. rewrite Hd. lia. }
  unfold binary_round_aux, shr_fexp. rewrite Hf.
  cbn [shr shr_record_of_loc shr_m loc_of_shr_record round_nearest_even].
  rewrite Hf. cbn [shr shr_record_of_loc shr_m].
  replace (e <=? F32.emax - F32.prec) with true; [reflexivity|].
  symmetry. apply Z.leb_le. unfold F32.emax, F32.prec. lia.
Qed.

Lemma trunc_of_Z_pos (s : bool) (p : positive) :
  Zpos p < 2 ^ 24 ->
  exists m e,
    binary_round F32.prec F32.emax s p 0 = S754_finite s m e
    /\ Z.shiftl (Zpos m) e = Zpos p.
Proof.
  intros Hp. pose proof (digits2_pos_bounds p) as [Hlo _].
  assert (Hd : Zpos (digits2_pos p) <= 24).
  { destruct (Z_le_gt_dec (Zpos (digits2_pos p)) 24) as [|Hgt]; [assumption|].
    assert (2 ^ 24 <= 2 ^ (Zpos (digits2_pos p) - 1))
      by (apply Z.pow_le_mono_r; lia).
    lia. }
  unfold binary_round.
  assert (Hf : fexp F32.prec F32.emax (Zpos (digits2_pos p) + 0)
               = Zpos (digits2_pos p) - 24).
  { unfold fexp, emin, F32.prec, F32.emax. lia. }
  rewrite Hf. unfold shl_align.
  destruct (Zpos (digits2_pos p) - 24 - 0) as [|k|k] eqn:Ek; try lia.
  - exists p, 0. split.
    + apply binary_round_aux_canonical; lia.
    + reflexivity.
  - exists (Pos.iter xO p k), (Zpos (digits2_pos p) - 24). split.
    + apply binary_round_aux_canonical; [rewrite iter_xO_digits|]; lia.
    + replace (Zpos (digits2_pos p) - 24) with (- Zpos k) by lia.
      rewrite Z.shiftl_opp_r, Z.shiftr_div_pow2, iter_xO_value by lia.
      apply Z.div_mul. lia.
Qed.

(** X13.  An integer of magnitude below 2^24 survives the conversion to
    [float] and back to [int] unchanged, on every target. *)
Theorem int_float_int_round_trip (n : Z) :
  - 2 ^ 24 < n < 2 ^ 24 ->
  F32.trunc (F32.of_Z n) = Some n
  /\ int_of_float cast_undefined (F32.of_Z n) = n.
Proof.
  intros Hn.
  assert (Ht : F32.trunc (F32.of_Z n) = Some n).
  { destruct n as [|p|p].
    - reflexivity.
    - destruct (trunc_of_Z_pos false p) as (m & e & Hr & Hs); [lia|].
      unfold F32.of_Z, binary_normalize. rewrite Hr. simpl. rewrite Hs.
      reflexivity.
    - destruct (trunc_of_Z_pos true p) as (m & e & Hr & Hs); [lia|].
      unfold F32.of_Z, binary_normalize. rewrite Hr. simpl. rewrite Hs.
      reflexivity. }
  split; [exact Ht|].
  unfold int_of_float. rewrite Ht.
  replace (in_int_range n) with true; [reflexivity|].
  symmetry. unfold in_int_range, INT_MIN, INT_MAX.
  apply andb_true_intro. split; apply Z.leb_le; lia.
Qed.

(** X14.  A raw class value strictly between [-1] and [1] is truncated to
    class 0, also when it is negative. *)
Theorem class_value_below_one_is_class_zero (x : F32.t) :
  F32.valid x = true ->
  F32.ltb (S754_finite true 8388608 (-23)) x = true ->
  F32.ltb x F32.one = true ->
  int_of_float cast_undefined x = 0.
Proof.
  intros Hv Hlo Hhi.
  assert (Ht : F32.trunc x = Some 0).
  { destruct x as [s|s| |s m e]; simpl.
    - reflexivity.
    - destruct s; discriminate.
    - discriminate.
    - unfold F32.valid, valid_binary, bounded, canonical_mantissa in Hv.
      apply andb_prop in Hv. destruct Hv as [Hc _]. apply Z.eqb_eq in Hc.
      unfold fexp, emin, F32.prec, F32.emax in Hc.
      pose proof (digits2_pos_bounds m) as [Hlow Hup].
      assert (He : e < -23 \/ e = -23 /\ Zpos m < 8388608).
      { unfold F32.ltb, SFltb, F32.one, SFcompare in Hlo, Hhi.
        change (PosDef.Pos.compare_cont Eq) with Pos.compare in Hlo, Hhi.
        destruct s.
        - destruct (Z.compare_spec (-23) e); try discriminate; [right|left; lia].
          split; [lia|].
          destruct (Pos.compare_spec 8388608 m) as [?|?|Hm]; try discriminate.
          exact Hm.
        - destruct (Z.compare_spec e (-23)); try discriminate; [right|left; lia].
          split; [lia|].
          destruct (Pos.compare_spec m 8388608) as [?|Hm|?]; try discriminate.
          exact Hm. }
      assert (Hz : Z.shiftl (Zpos m) e = 0).
      { destruct He as [He|(He & Hm)].
        - assert (Hd : Zpos (digits2_pos m) <= 24) by lia.
          replace e with (- (- e)) by lia.
          rewrite Z.shiftl_opp_r, Z.shiftr_div_pow2 by lia.
          apply Z.div_small. split; [lia|].
          eapply Z.lt_le_trans; [exact Hup|].
          apply Z.pow_le_mono_r; lia.
        - exfalso. subst e.
          assert (Hd : Zpos (digits2_pos m) = 24) by lia.
          rewrite Hd in Hlow. change (2 ^ (24 - 1)) with 8388608 in Hlow. lia. }
      rewrite Hz. destruct s; reflexivity. }
  unfold int_of_float. rewrite Ht. reflexivity.
Qed.

End Values.

(** ** The exported entry points *)

Section CStrings.

Lemma has_nul_app (a b : string) :
  has_nul (a ++ b) = has_nul a || has_nul b.
Proof.
  induction a as [|c a IH]; simpl; [reflexivity|].
  rewrite IH, orb_assoc. reflexivity.
Qed.

Lemma strdup_no_nul (s : string) : has_nul s = false -> strdup_c_str s = s.
Proof.
  induction s as [|c s IH]; simpl; [reflexivity|].
  intros H. apply orb_false_elim in H. destruct H as [Hc Hs].
  rewrite Hc, (IH Hs). reflexivity.
Qed.

Lemma has_nul_string_of_uint (d : Decimal.uint) :
  has_nul (NilEmpty.string_of_uint d) = false.
Proof. induction d; simpl; auto. Qed.

Lemma has_nul_string_of_Z (z : Z) : has_nul (string_of_Z z) = false.
Proof.
  unfold string_of_Z, NilZero.string_of_int, NilZero.string_of_uint.
  destruct (Z.to_int z) as [d|d]; [|simpl];
    destruct d; try reflexivity; apply has_nul_string_of_uint.
Qed.

Lemma has_nul_zeros (n : nat) : has_nul (zeros n) = false.
Proof. induction n; simpl; auto. Qed.

Lemma has_nul_format_fixed (p : Z) (x : F32.t) :
  has_nul (format_fixed p x) = false.
Proof.
  assert (Hd : forall n,
             has_nul
               (if p <=? 0 then string_of_Z (n / 10 ^ p)
                else string_of_Z (n / 10 ^ p) ++ "."
                     ++ pad_left (Z.to_nat p) (string_of_Z (n mod 10 ^ p)))
             = false).
  { intros n. destruct (p <=? 0); [apply has_nul_string_of_Z|].
    unfold pad_left.
    rewrite !has_nul_app, !has_nul_string_of_Z, has_nul_zeros. reflexivity. }
  unfold format_fixed. cbv zeta.
  destruct x as [s|s| |s m e];
    try reflexivity; try (destruct s; reflexivity);
    rewrite has_nul_app, Hd; destruct s; reflexivity.
Qed.

Lemma has_nul_render_box (coord_precision score_precision : Z)
    (b : DetectionBox) :
  has_nul (class_name b) = false ->
  has_nul (render_box coord_precision score_precision b) = false.
Proof.
  intros H. unfold render_box.
  rewrite !has_nul_app, !has_nul_format_fixed, has_nul_string_of_Z, H.
  reflexivity.
Qed.

Lemma has_nul_concat_boxes (coord_precision score_precision : Z)
    (detections : list DetectionBox) :
  Forall (fun b => has_nul (class_name b) = false) detections ->
  has_nul (concat "," (map (render_box coord_precision score_precision)
                         detections)) = false.
Proof.
  induction 1 as [|b l Hb Hl IH]; [reflexivity|].
  cbn [map concat]. destruct (map _ l) eqn:E.
  - apply has_nul_render_box, Hb.
  - rewrite !has_nul_app, (has_nul_render_box _ _ _ Hb), IH. reflexivity.
Qed.

End CStrings.

Section Exported.

Variable DOC_CLASSES : list string.
Variable preprocessImage : Mat -> Z -> Z -> outcome (Mat * (F32.t * F32.t)).
Variable imageToBlob : Mat -> outcome (list F32.t).
Variable create_session : string -> outcome Session.
Variable cast_undefined : F32.t -> Z.
Variable format_general : Z -> F32.t -> string.
Variable imread : string -> Mat.
Variable cvtColor : MatType -> Mat -> ColorConversionCode -> outcome Mat.

Local Abbreviation detect :=
  (detectDocLayout DOC_CLASSES preprocessImage imageToBlob create_session
     cast_undefined).
Local Abbreviation layout :=
  (detectLayout DOC_CLASSES preprocessImage imageToBlob create_session
     cast_undefined format_general imread).
Local Abbreviation layout_from_bytes :=
  (detectLayoutFromBytes DOC_CLASSES preprocessImage imageToBlob
     create_session cast_undefined format_general cvtColor).

(** The loop only appends to the stream. *)
Lemma put_detections_appends (coord_precision : Z)
    (detections : list DetectionBox) :
  forall fuel i json,
    exists suffix,
      str (put_detections format_general coord_precision fuel i detections
             json)
      = (str json ++ suffix)%string.
Proof.
  induction fuel as [|fuel IH]; intros i json.
  - exists EmptyString. simpl. rewrite append_nil_r. reflexivity.
  - cbn [put_detections].
    match goal with
    | |- context [put_detections _ _ fuel (i + 1) detections ?j] =>
        destruct (IH (i + 1) j) as (suffix & ->)
    end.
    destruct (i <? size_minus_1 detections);
      cbn [put fixed setprecision put_float put_int str floatfield_fixed
           precision];
      rewrite !append_assoc; eexists; reflexivity.
Qed.

(** X15.  [detectLayout] returns the [IMAGE_LOAD_FAILED] text exactly when
    the image cannot be read, and then it leaves the process untouched; for
    a readable image the text is never that one and the process is the one
    the detection leaves. *)
Theorem load_error_iff_image_unreadable (img_path : string)
    (conf_threshold : F32.t) (start stop : Z) (p : Process) :
  (empty (imread img_path) = true ->
   layout img_path conf_threshold start stop p = (image_load_failed, p))
  /\ (empty (imread img_path) = false ->
      fst (layout img_path conf_threshold start stop p) <> image_load_failed
      /\ snd (layout img_path conf_threshold start stop p)
         = snd (detect (imread img_path) conf_threshold p)).
Proof.
  unfold detectLayout. split; intros He; rewrite He.
  - reflexivity.
  - destruct (detect (imread img_path) conf_threshold p) as [detections p'].
    split; [|reflexivity]. cbn [fst].
    unfold detectLayout_response.
    cbn [put put_int str floatfield_fixed precision].
    destruct (put_detections_appends 1 detections (List.length detections) 0
                (put ("{" ++ key "detections" ++ "[")%string
                   new_ostringstream)) as (suffix & ->).
    cbn [put str new_ostringstream]. rewrite !append_assoc.
    intros H. vm_compute in H. discriminate H.
Qed.

(** X16.  When the detection of a readable image returns no box, be it
    because the model found none or because the pipeline failed,
    [detectLayout] returns the same success-shaped text: an empty
    [detections] array, count 0, the elapsed milliseconds and the image's
    width and height. *)
Theorem no_detection_and_failure_read_the_same (img_path : string)
    (conf_threshold : F32.t) (start stop : Z) (p : Process) :
  empty (imread img_path) = false ->
  fst (detect (imread img_path) conf_threshold p) = [] ->
  fst (layout img_path conf_threshold start stop p)
  = ("{" ++ key "detections" ++ "[],"
         ++ key "count" ++ "0,"
         ++ key "inference_time_ms"
         ++ string_of_Z (Z.quot (stop - start) 1000000) ++ ","
         ++ key "image_width" ++ string_of_Z (cols (imread img_path)) ++ ","
         ++ key "image_height" ++ string_of_Z (rows (imread img_path))
         ++ "}")%string.
Proof.
  intros He Hd. unfold detectLayout. rewrite He.
  destruct (detect (imread img_path) conf_threshold p) as [detections p'].
  cbn [fst] in *. subst detections.
  unfold detectLayout_response, elapsed_ms.
  cbn [put_detections List.length put put_int str floatfield_fixed precision
       new_ostringstream Z.of_nat].
  rewrite !append_assoc. cbn [append].
  apply strdup_no_nul.
  repeat (cbn [has_nul append]; rewrite ?has_nul_app, ?has_nul_string_of_Z).
  reflexivity.
Qed.

(** X17.  For a channel count other than 1 and 4, [detectLayoutFromBytes]
    answers an empty frame (zero width or height), with a buffer or with a
    null pointer, by the zero-detection text carrying the caller's width
    and height: no error text, no exception, and the process is left
    untouched. *)
Theorem from_bytes_without_conversion (image_data : option (list Z))
    (width height channels : Z) (conf_threshold : F32.t)
    (start stop : Z) (p : Process) :
  channels <> 4 -> channels <> 1 ->
  height * width = 0 ->
  layout_from_bytes image_data width height channels conf_threshold
    start stop p
  = Ok (("{" ++ key "detections" ++ "[],"
             ++ key "count" ++ "0,"
             ++ key "inference_time_ms"
             ++ string_of_Z (Z.quot (stop - start) 1000000) ++ ","
             ++ key "image_width" ++ string_of_Z width ++ ","
             ++ key "image_height" ++ string_of_Z height
             ++ "}")%string, p).
Proof.
  intros H4 H1 Hz.
  apply Z.eqb_neq in H4. apply Z.eqb_neq in H1.
  unfold detectLayoutFromBytes.
  assert (Hm : exists image,
             Mat_of_buffer height width image_data = Ok image
             /\ empty image = true).
  { unfold Mat_of_buffer, empty. destruct image_data as [d|].
    - eexists. split; [reflexivity|]. simpl. apply Z.eqb_eq. exact Hz.
    - apply Z.eqb_eq in Hz. rewrite Hz. eexists. split; reflexivity. }
  destruct Hm as (image & -> & He). rewrite H4, H1.
  unfold detectDocLayout. rewrite He. cbn [results proc].
  unfold detectLayoutFromBytes_response, elapsed_ms.
  cbn [put_detections List.length put put_int str floatfield_fixed
       precision new_ostringstream Z.of_nat].
  rewrite !append_assoc. cbn [append].
  f_equal. f_equal. apply strdup_no_nul.
  repeat (cbn [has_nul append]; rewrite ?has_nul_app, ?has_nul_string_of_Z).
  reflexivity.
Qed.

(** X19.  When no class name of the returned boxes holds a NUL character,
    the C string [detectLayout] hands out is the whole JSON text: the
    objects of the boxes with coordinates at 1 decimal and score at 4,
    then count, elapsed time, width and height. *)
Theorem layout_text_is_complete (img_path : string)
    (conf_threshold : F32.t) (start stop : Z) (p : Process) :
  let image := imread img_path in
  let detections := fst (detect image conf_threshold p) in
  empty image = false ->
  Z.of_nat (List.length detections) < 2 ^ 64 ->
  Forall (fun b => has_nul (class_name b) = false) detections ->
  fst (layout img_path conf_threshold start stop p)
  = ("{" ++ key "detections" ++ "["
         ++ concat "," (map (render_box 1 4) detections)
         ++ "]," ++ key "count"
         ++ string_of_Z (Z.of_nat (List.length detections)) ++ ","
         ++ key "inference_time_ms"
         ++ string_of_Z (Z.quot (stop - start) 1000000) ++ ","
         ++ key "image_width" ++ string_of_Z (cols image) ++ ","
         ++ key "image_height" ++ string_of_Z (rows image) ++ "}")%string.
Proof.
  cbv zeta. intros He Hlen Hnul. unfold detectLayout. rewrite He.
  destruct (detect (imread img_path) conf_threshold p) as [detections p'].
  cbn [fst] in *.
  unfold detectLayout_response, elapsed_ms.
  cbn [put put_int str floatfield_fixed precision].
  rewrite (put_detections_str format_general 1 detections Hlen)
    by (simpl; lia).
  cbn [put str new_ostringstream Z.to_nat skipn].
  rewrite !append_assoc. cbn [append].
  apply strdup_no_nul.
  repeat (cbn [has_nul append];
          rewrite ?has_nul_app, ?has_nul_string_of_Z,
            ?(has_nul_concat_boxes _ _ _ Hnul)).
  reflexivity.
Qed.

End Exported.

(** ** Further worked examples *)

Section MoreExamples.

Import Stub.

Local Abbreviation run model image conf :=
  (detectDocLayout classes stretch blob (load model) cast_x86 image conf cold).
Local Abbreviation run_warm model image conf :=
  (detectDocLayout classes stretch blob (load model) cast_x86 image conf
     (Scenario.warm model)).

Lemma returned_box_passes_threshold_and_names_its_class_witness :
  In Scenario.decoded_box
    (fst (run Scenario.m_model Scenario.image Scenario.half))
  /\ nth_error classes (Z.to_nat (class_id Scenario.decoded_box))
     = Some (class_name Scenario.decoded_box).
Proof.
  assert (H : In Scenario.decoded_box
                (fst (run Scenario.m_model Scenario.image Scenario.half)))
    by (vm_compute; left; reflexivity).
  split; [exact H|].
  apply (returned_box_passes_threshold_and_names_its_class classes stretch
           blob (load Scenario.m_model) cast_x86 Scenario.image Scenario.half
           cold Scenario.decoded_box H).
  vm_compute. intros X. discriminate X.
Defined.

Lemma higher_threshold_filters_lower_result_witness :
  F32.leb Scenario.half (f32 7 10) = true
  /\ List.length (fst (run Host.two_row_model Scenario.image Scenario.half))
     = 2%nat
  /\ fst (run Host.two_row_model Scenario.image (f32 7 10))
     = filter (fun b => F32.geb (score b) (f32 7 10))
         (fst (run Host.two_row_model Scenario.image Scenario.half)).
Proof.
  assert (H : F32.leb Scenario.half (f32 7 10) = true) by reflexivity.
  split; [exact H|]. split; [reflexivity|].
  exact (higher_threshold_filters_lower_result classes stretch blob
           (load Host.two_row_model) cast_x86 Scenario.image Scenario.half
           (f32 7 10) cold H).
Defined.

Lemma no_more_boxes_than_rows_witness :
  empty Scenario.image = false
  /\ Z.of_nat (List.length
                 (fst (run Host.two_row_model Scenario.image Scenario.half)))
     <= Z.max 0 (int_of_int64 2).
Proof.
  split; [reflexivity|].
  exact (proj1 (no_more_boxes_than_rows classes stretch blob
                  (load Host.two_row_model) cast_x86 Scenario.image
                  Scenario.half cold _ _ _ _ eq_refl eq_refl)).
Defined.

Lemma call_keeps_statics_and_path_witness :
  session (Scenario.warm Scenario.failing_model) = Some Scenario.failing_model
  /\ session (snd (run_warm Scenario.failing_model Scenario.image
                     Scenario.half))
     = Some Scenario.failing_model.
Proof.
  split; [reflexivity|].
  exact (proj1 (proj2
           (call_keeps_statics_and_path classes stretch blob
              (load Scenario.failing_model) cast_x86 Scenario.image
              Scenario.half (Scenario.warm Scenario.failing_model)))
           Scenario.failing_model eq_refl).
Defined.

Lemma failed_load_is_retried_witness :
  session cold = None
  /\ detectDocLayout classes stretch blob load_fails cast_x86
       (picture 800 600) Scenario.half
       (emit (EvCreateSession (MODEL_PATH cold)) cold)
     = ([], emit (EvCreateSession (MODEL_PATH cold))
              (emit (EvCreateSession (MODEL_PATH cold)) cold)).
Proof.
  split; [reflexivity|].
  exact (proj2 (failed_load_is_retried classes stretch blob load_fails
                  cast_x86 Scenario.image (picture 800 600) Scenario.half
                  Scenario.half cold (OrtException "Load model failed")
                  eq_refl eq_refl eq_refl eq_refl)).
Defined.

Lemma created_session_is_cached_witness :
  load Scenario.failing_model (MODEL_PATH cold) = Ok Scenario.failing_model
  /\ fst (run Scenario.failing_model Scenario.image Scenario.half) = []
  /\ session (snd (run Scenario.failing_model Scenario.image Scenario.half))
     = Some Scenario.failing_model.
Proof.
  split; [reflexivity|]. split; [reflexivity|].
  exact (proj1 (created_session_is_cached classes stretch blob
                  (load Scenario.failing_model) cast_x86 Scenario.image
                  Scenario.half cold Scenario.failing_model
                  eq_refl eq_refl eq_refl)).
Defined.

Lemma model_path_unused_once_session_exists_witness :
  session (Scenario.warm Scenario.m_model) = Some Scenario.m_model
  /\ fst (detectDocLayout classes stretch blob load_fails cast_x86
            Scenario.image Scenario.half
            (with_path "other.onnx" (Scenario.warm Scenario.m_model)))
     = fst (detectDocLayout classes stretch blob load_fails cast_x86
              Scenario.image Scenario.half (Scenario.warm Scenario.m_model)).
Proof.
  split; [reflexivity|].
  rewrite (model_path_unused_once_session_exists classes stretch blob
             load_fails cast_x86 Scenario.image Scenario.half
             (Scenario.warm Scenario.m_model) Scenario.m_model "other.onnx"
             eq_refl).
  reflexivity.
Defined.

Lemma one_output_is_requested_witness :
  output_name_0 cold = None
  /\ exists earlier names tensors,
       trace (snd (run Scenario.m_model Scenario.image Scenario.half))
       = earlier ++ [EvRun names tensors ["fetch_name_0"%string]].
Proof.
  split; [reflexivity|].
  destruct (one_output_is_requested stretch blob (load Scenario.m_model)
              Scenario.image cold _ _ _ _ eq_refl)
    as (sess & out0 & earlier & names & tensors & Hs & Ht & Hn & _).
  injection Hs as <-. specialize (Hn eq_refl). injection Hn as <-.
  exists earlier, names, tensors. exact Ht.
Defined.

Lemma model_without_names_returns_nothing_witness :
  input_names Host.no_input_model = []
  /\ output_names Host.no_output_model = []
  /\ fst (run Host.no_input_model Scenario.image Scenario.half) = []
  /\ fst (run Host.no_output_model Scenario.image Scenario.half) = [].
Proof.
  split; [reflexivity|]. split; [reflexivity|]. split.
  - exact (model_without_names_returns_nothing classes stretch blob
             (load Host.no_input_model) cast_x86 Scenario.image Scenario.half
             cold Host.no_input_model
             (or_intror (conj eq_refl eq_refl))
             (or_introl (conj eq_refl eq_refl))).
  - exact (model_without_names_returns_nothing classes stretch blob
             (load Host.no_output_model) cast_x86 Scenario.image
             Scenario.half cold Host.no_output_model
             (or_intror (conj eq_refl eq_refl))
             (or_intror (conj eq_refl eq_refl))).
Defined.

Lemma clamp_by_cases_witness :
  F32.ltb (F32.of_Z 800) (F32.of_Z 10000) = true
  /\ clamp (F32.of_Z 10000) (F32.of_Z 800) = F32.of_Z 800
  /\ clamp (f32 (-5) 1) (F32.of_Z 800) = F32.zero.
Proof.
  split; [reflexivity|]. split.
  - exact (proj2 (proj2 (proj2 (clamp_by_cases (F32.of_Z 10000)
                                  (F32.of_Z 800)))) eq_refl eq_refl).
  - exact (proj1 (proj2 (clamp_by_cases (f32 (-5) 1) (F32.of_Z 800)))
             eq_refl).
Defined.


Lemma int_float_int_round_trip_witness :
  - 2 ^ 24 < 1280 < 2 ^ 24
  /\ int_of_float cast_x86 (F32.of_Z 1280) = 1280
  /\ int_of_float cast_arm (F32.of_Z (-1)) = -1.
Proof.
  assert (H : - 2 ^ 24 < 1280 < 2 ^ 24) by lia.
  assert (H' : - 2 ^ 24 < -1 < 2 ^ 24) by lia.
  split; [exact H|]. split.
  - exact (proj2 (int_float_int_round_trip cast_x86 1280 H)).
  - exact (proj2 (int_float_int_round_trip cast_arm (-1) H')).
Defined.

Lemma class_value_below_one_is_class_zero_witness :
  F32.valid (f32 (-1) 2) = true
  /\ int_of_float cast_x86 (f32 (-1) 2) = 0.
Proof.
  split; [reflexivity|].
  exact (class_value_below_one_is_class_zero cast_x86 (f32 (-1) 2)
           eq_refl eq_refl eq_refl).
Defined.

Local Abbreviation layout load img_path :=
  (detectLayout classes stretch blob load cast_x86 Scenario.general_unused
     Host.imread img_path Scenario.half 0 12000000 cold).

Lemma load_error_iff_image_unreadable_witness :
  empty (Host.imread "missing.png") = true
  /\ empty (Host.imread "page.png") = false
  /\ layout (load Scenario.m_model) "missing.png"%string
     = (image_load_failed, cold)
  /\ fst (layout (load Scenario.m_model) "page.png"%string)
     <> image_load_failed.
Proof.
  split; [reflexivity|]. split; [reflexivity|]. split.
  - exact (proj1 (load_error_iff_image_unreadable classes stretch blob
                    (load Scenario.m_model) cast_x86 Scenario.general_unused
                    Host.imread "missing.png" Scenario.half 0 12000000 cold)
             eq_refl).
  - exact (proj1 (proj2 (load_error_iff_image_unreadable classes stretch blob
                           (load Scenario.m_model) cast_x86
                           Scenario.general_unused Host.imread "page.png"
                           Scenario.half 0 12000000 cold) eq_refl)).
Defined.

Lemma no_detection_and_failure_read_the_same_witness :
  fst (detectDocLayout classes stretch blob load_fails cast_x86
         (Host.imread "page.png") Scenario.half cold) = []
  /\ fst (layout load_fails "page.png"%string)
     = ("{" ++ key "detections" ++ "[]," ++ key "count" ++ "0,"
            ++ key "inference_time_ms" ++ "12,"
            ++ key "image_width" ++ "1280,"
            ++ key "image_height" ++ "960}")%string.
Proof.
  split; [reflexivity|].
  rewrite (no_detection_and_failure_read_the_same classes stretch blob
             load_fails cast_x86 Scenario.general_unused Host.imread
             "page.png" Scenario.half 0 12000000 cold eq_refl eq_refl).
  reflexivity.
Defined.

Lemma layout_text_is_complete_witness :
  empty (Host.imread "page.png") = false
  /\ fst (layout (load Scenario.m_model) "page.png"%string)
     = ("{" ++ key "detections" ++ "[{"
            ++ key "x1" ++ "200.0," ++ key "y1" ++ "75.0,"
            ++ key "x2" ++ "600.0," ++ key "y2" ++ "300.0,"
            ++ key "score" ++ "0.8700," ++ key "class_id" ++ "2,"
            ++ key "class_name" ++ dquote ++ "text" ++ dquote
            ++ "}]," ++ key "count" ++ "1,"
            ++ key "inference_time_ms" ++ "12,"
            ++ key "image_width" ++ "1280,"
            ++ key "image_height" ++ "960}")%string.
Proof.
  split; [reflexivity|].
  rewrite (layout_text_is_complete classes stretch blob
             (load Scenario.m_model) cast_x86 Scenario.general_unused
             Host.imread "page.png" Scenario.half 0 12000000 cold eq_refl).
  - vm_compute. reflexivity.
  - vm_compute. reflexivity.
  - vm_compute. repeat constructor.
Defined.

End MoreExamples.

(** ** Running a session whatever its input count *)

Section Forward.

Variable DOC_CLASSES : list string.
Variable preprocessImage : Mat -> Z -> Z -> outcome (Mat * (F32.t * F32.t)).
Variable imageToBlob : Mat -> outcome (list F32.t).
Variable create_session : string -> outcome Session.
Variable cast_undefined : F32.t -> Z.

Local Abbreviation detect :=
  (detectDocLayout DOC_CLASSES preprocessImage imageToBlob create_session
     cast_undefined).
Local Abbreviation infer_from p image :=
  (infer preprocessImage imageToBlob create_session image
     {| proc := p; results := [] |}).

Lemma bind_forward {A B} (m : M A) (k : A -> M B) (fr fr1 : Frame) (a : A) :
  m fr = (Ok a, fr1) -> bind m k fr = k a fr1.
Proof. intros H. unfold bind. rewrite H. reflexivity. Qed.

(** The logging loops over all declared names succeed. *)
Lemma fetch_names_in_range (names : list string) (fuel : nat) :
  forall i fr,
    0 <= i -> (Z.to_nat i + fuel = List.length names)%nat ->
    fetch_names (name_at names) fuel i fr = (Ok tt, fr).
Proof.
  induction fuel as [|fuel IH]; intros i fr Hi Hl; [reflexivity|].
  cbn [fetch_names]. unfold bind, lift, name_at.
  replace (i <? 0) with false by (symmetry; apply Z.ltb_ge; exact Hi).
  destruct (nth_error names (Z.to_nat i)) eqn:E.
  - apply IH; lia.
  - apply nth_error_None in E. lia.
Qed.

Lemma fetch_input_names (sess : Session) (fr : Frame) :
  fetch_names (GetInputNameAllocated sess) (Z.to_nat (GetInputCount sess)) 0 fr
  = (Ok tt, fr).
Proof.
  unfold GetInputCount. rewrite Nat2Z.id.
  apply (fetch_names_in_range (input_names sess)); simpl; lia.
Qed.

Lemma fetch_output_names (sess : Session) (fr : Frame) :
  fetch_names (GetOutputNameAllocated sess) (Z.to_nat (GetOutputCount sess)) 0 fr
  = (Ok tt, fr).
Proof.
  unfold GetOutputCount. rewrite Nat2Z.id.
  apply (fetch_names_in_range (output_names sess)); simpl; lia.
Qed.

Lemma name_at_first (names : list string) :
  names <> [] -> name_at names 0 = Ok (nth 0 names EmptyString).
Proof. destruct names; [congruence | reflexivity]. Qed.

Lemma name_at_second_or_first (names : list string) :
  names <> [] ->
  exists v,
    (if Z.of_nat (List.length names) >? 1
     then name_at names 1 else name_at names 0) = Ok v.
Proof.
  destruct names as [|a [|b l]]; [congruence | |]; intros _.
  - exists a. reflexivity.
  - exists b.
    replace (Z.of_nat (List.length (a :: b :: l)) >? 1) with true;
      [reflexivity|].
    symmetry. apply Z.gtb_lt. simpl List.length. lia.
Qed.

Lemma static_session_forward (fr : Frame) (sess : Session) :
  session (proc fr) = Some sess
  \/ session (proc fr) = None
     /\ create_session (MODEL_PATH (proc fr)) = Ok sess ->
  exists fr1,
    static_local session set_session
      (path <- get_model_path ;;
       log (EvCreateSession path) ;;;
       lift (create_session path))%try fr = (Ok sess, fr1)
    /\ output_name_0 (proc fr1) = output_name_0 (proc fr).
Proof.
  unfold static_local, bind, get_model_path, log, lift.
  intros [H|(H & Hc)]; rewrite H.
  - exists fr. auto.
  - cbn [proc results]. rewrite Hc. eexists. split; reflexivity.
Qed.

Lemma static_name_forward (get : Process -> option string)
    (set : string -> Process -> Process) (o : outcome string)
    (fr : Frame) (v0 : string) :
  o = Ok v0 ->
  exists fr1,
    static_local get set (lift o) fr
    = (Ok (match get (proc fr) with Some v => v | None => v0 end), fr1)
    /\ (fr1 = fr
        \/ fr1 = {| proc := set v0 (proc fr); results := results fr |}).
Proof.
  intros ->. unfold static_local, lift.
  destruct (get (proc fr)); eexists; split; try reflexivity; auto.
Qed.

(** With a session that declares an input and an output, and with
    preprocessing and blob conversion succeeding, steps 1 to 6 reach the
    forward pass, and their outcome is the outcome of that pass. *)
Lemma infer_forward (image : Mat) (fr : Frame) (sess : Session)
    (resized_img : Mat) (scale_factor : F32.t * F32.t) (blob : list F32.t) :
  session (proc fr) = Some sess
  \/ session (proc fr) = None
     /\ create_session (MODEL_PATH (proc fr)) = Ok sess ->
  input_names sess <> [] -> output_names sess <> [] ->
  preprocessImage image 640 640 = Ok (resized_img, scale_factor) ->
  imageToBlob resized_img = Ok blob ->
  let out0 :=
    match output_name_0 (proc fr) with
    | Some v => v
    | None => nth 0 (output_names sess) EmptyString
    end in
  let names := fst (submitted (GetInputCount sess) image blob scale_factor) in
  let tensors := snd (submitted (GetInputCount sess) image blob scale_factor) in
  exists fr',
    infer preprocessImage imageToBlob create_session image fr
    = (match Run sess names tensors [out0] with
       | Ok outputs => Ok (outputs, GetInputCount sess =? 3, scale_factor)
       | Throw e => Throw e
       end, fr')
    /\ exists earlier,
         trace (proc fr') = earlier ++ [EvRun names tensors [out0]].
Proof.
  intros Hs Hin Hout Hp Hb. cbv zeta. unfold infer.
  destruct (static_session_forward fr sess Hs) as (fr1 & E1 & O1).
  rewrite (bind_forward _ _ _ _ _ E1).
  destruct (static_name_forward input_name set_input_name
              (GetInputNameAllocated sess 0) fr1 _ (name_at_first _ Hin))
    as (fr2 & E2 & F2).
  rewrite (bind_forward _ _ _ _ _ E2).
  rewrite (bind_forward _ _ _ _ _ (fetch_input_names sess fr2)).
  rewrite (bind_forward _ _ _ _ _ (fetch_output_names sess fr2)).
  destruct (static_name_forward output_name_0 set_output_name_0
              (GetOutputNameAllocated sess 0) fr2 _ (name_at_first _ Hout))
    as (fr3 & E3 & F3).
  rewrite (bind_forward _ _ _ _ _ E3).
  assert (O2 : output_name_0 (proc fr2) = output_name_0 (proc fr)).
  { destruct F2 as [->| ->]; [exact O1 | exact O1]. }
  rewrite O2.
  destruct (name_at_second_or_first _ Hout) as (v1 & Hv1).
  destruct (static_name_forward output_name_1 set_output_name_1
              (if GetOutputCount sess >? 1
               then GetOutputNameAllocated sess 1
               else GetOutputNameAllocated sess 0) fr3 v1 Hv1)
    as (fr4 & E4 & _).
  rewrite (bind_forward _ _ _ _ _ E4).
  unfold bind, log, lift, ret. cbn [proc results]. rewrite Hp, Hb.
  unfold submitted.
  destruct (GetInputCount sess =? 3); cbn [fst snd proc results];
    match goal with
    | |- context [Run sess ?n ?t ?o] => destruct (Run sess n t o)
    end;
    eexists; (split; [reflexivity|]); eexists; reflexivity.
Qed.

(** C4 (as amended).  A session whose declared input count is not 3, be it
    2 or a count such as 1 or 4, is not turned away: when it declares at
    least one input and one output and preprocessing and blob conversion
    succeed, the forward pass is made with the two tensors [image] and
    [scale_factor], the latter holding the scale factor of the resize.
    The call returns what decodes from the outputs under the inverse of
    that scale when the pass returns, and the empty list when it
    throws. *)
Theorem other_counts_run_as_two_inputs (image : Mat) (conf_threshold : F32.t)
    (p : Process) (sess : Session) (resized_img : Mat)
    (scale_factor : F32.t * F32.t) (blob : list F32.t) :
  empty image = false ->
  session p = Some sess
  \/ session p = None /\ create_session (MODEL_PATH p) = Ok sess ->
  GetInputCount sess <> 3 ->
  input_names sess <> [] -> output_names sess <> [] ->
  preprocessImage image 640 640 = Ok (resized_img, scale_factor) ->
  imageToBlob resized_img = Ok blob ->
  let out0 :=
    match output_name_0 p with
    | Some v => v
    | None => nth 0 (output_names sess) EmptyString
    end in
  let tensors :=
    [{| shape := [1; 3; 640; 640]; values := blob |};
     {| shape := [1; 2];
        values := [fst scale_factor; snd scale_factor] |}] in
  (exists earlier,
     trace (snd (detect image conf_threshold p))
     = earlier ++ [EvRun ["image"; "scale_factor"]%string tensors [out0]])
  /\ fst (detect image conf_threshold p)
     = match Run sess ["image"; "scale_factor"]%string tensors [out0] with
       | Ok outputs =>
           decoded DOC_CLASSES cast_undefined image conf_threshold outputs
             false scale_factor
       | Throw _ => []
       end.
Proof.
  intros He Hs Hn Hin Hout Hp Hb. cbv zeta.
  destruct (infer_forward image {| proc := p; results := [] |} sess
              resized_img scale_factor blob Hs Hin Hout Hp Hb)
    as (fr' & Hi & earlier & Ht).
  apply Z.eqb_neq in Hn. unfold submitted in Hi, Ht.
  rewrite Hn in Hi, Ht. cbn [fst snd proc] in Hi, Ht.
  destruct (Run sess _ _ _) as [outputs|e].
  - rewrite (detect_ok _ _ _ _ _ _ _ _ _ _ _ _ He Hi). cbn [fst snd].
    split; [exists earlier; exact Ht | reflexivity].
  - rewrite (detect_throw _ _ _ _ _ _ _ _ _ _ He Hi). cbn [fst snd].
    split; [exists earlier; exact Ht | reflexivity].
Qed.


End Forward.

(** ** The frame bound and the order of the clamped coordinates *)

Section FrameBound.

(** An integer of magnitude below 2^24 is rounded to itself. *)
Lemma binary_round_small (s : bool) (p : positive) :
  Zpos p < 2 ^ 24 ->
  binary_round F32.prec F32.emax s p 0 = S754_finite s p 0
  \/ exists k,
       binary_round F32.prec F32.emax s p 0
       = S754_finite s (Pos.iter xO p k) (Zneg k).
Proof.
  intros Hp. pose proof (digits2_pos_bounds p) as [Hlo _].
  assert (Hd : Zpos (digits2_pos p) <= 24).
  { destruct (Z_le_gt_dec (Zpos (digits2_pos p)) 24) as [|Hgt]; [assumption|].
    assert (2 ^ 24 <= 2 ^ (Zpos (digits2_pos p) - 1))
      by (apply Z.pow_le_mono_r; lia).
    lia. }
  unfold binary_round.
  assert (Hf : fexp F32.prec F32.emax (Zpos (digits2_pos p) + 0)
               = Zpos (digits2_pos p) - 24).
  { unfold fexp, emin, F32.prec, F32.emax. lia. }
  rewrite Hf. unfold shl_align.
  destruct (Zpos (digits2_pos p) - 24 - 0) as [|k|k] eqn:Ek; try lia.
  - left. apply binary_round_aux_canonical; lia.
  - right. exists k.
    replace (Zpos (digits2_pos p) - 24) with (Zneg k) by lia.
    apply binary_round_aux_canonical; [rewrite iter_xO_digits|]; lia.
Qed.

Lemma integer_value_of_Z (n : Z) :
  - 2 ^ 24 < n < 2 ^ 24 -> integer_value (F32.of_Z n) = Some n.
Proof.
  intros Hn.
  assert (G : forall s p,
             Zpos p < 2 ^ 24 ->
             integer_value (binary_round F32.prec F32.emax s p 0)
             = Some (if s then - Zpos p else Zpos p)).
  { intros s p Hp.
    destruct (binary_round_small s p Hp) as [-> | (k & ->)];
      cbn [integer_value].
    - rewrite Z.pow_0_r, Z.mul_1_r. reflexivity.
    - rewrite iter_xO_value, Z.mod_mul, Z.div_mul by lia. reflexivity. }
  destruct n as [|p|p]; [reflexivity | |];
    unfold F32.of_Z, binary_normalize; rewrite G by lia; reflexivity.
Qed.

Variable DOC_CLASSES : list string.
Variable preprocessImage : Mat -> Z -> Z -> outcome (Mat * (F32.t * F32.t)).
Variable imageToBlob : Mat -> outcome (list F32.t).
Variable create_session : string -> outcome Session.
Variable cast_undefined : F32.t -> Z.

Local Abbreviation detect :=
  (detectDocLayout DOC_CLASSES preprocessImage imageToBlob create_session
     cast_undefined).
Local Abbreviation infer_from p image :=
  (infer preprocessImage imageToBlob create_session image
     {| proc := p; results := [] |}).

(** C1 (as amended).  For an image of non-negative dimensions every box
    [detectDocLayout] returns has each of its four coordinates clamped on
    its own between [0] and the frame bound as a [float],
    [static_cast<float>(cols)] for [x1], [x2] and
    [static_cast<float>(rows)] for [y1], [y2], whatever the raw row holds,
    NaN included.  That bound is the image's width (height) itself when it
    is below 2^24; above, it is the nearest [float].  No step orders [x1]
    and [x2]: the returned boxes are the boxes of the passing rows, and for
    each row the clamped pair keeps the order of the scaled pair.  Scaled
    [x1 <= x2] gives [x1 <= x2]; scaled [x1 > x2] gives [x1 >= x2], and
    [x1 > x2] when both scaled values are above zero and not above the
    bound.  The same holds of [y1] and [y2]. *)
Theorem boxes_clamped_to_frame (image : Mat) (conf_threshold : F32.t)
    (p : Process) :
  0 <= rows image -> 0 <= cols image ->
  let width := F32.of_Z (cols image) in
  let height := F32.of_Z (rows image) in
  (forall b,
      In b (fst (detect image conf_threshold p)) ->
      (F32.leb F32.zero (x1 b) = true /\ F32.leb (x1 b) width = true)
      /\ (F32.leb F32.zero (x2 b) = true /\ F32.leb (x2 b) width = true)
      /\ (F32.leb F32.zero (y1 b) = true /\ F32.leb (y1 b) height = true)
      /\ (F32.leb F32.zero (y2 b) = true /\ F32.leb (y2 b) height = true))
  /\ (cols image < 2 ^ 24 -> integer_value width = Some (cols image))
  /\ (rows image < 2 ^ 24 -> integer_value height = Some (rows image))
  /\ (forall outputs is_l_model scale_factor fr',
        empty image = false ->
        infer_from p image = (Ok (outputs, is_l_model, scale_factor), fr') ->
        let output0 := nth 0 outputs {| shape := []; values := [] |} in
        let output_data := values output0 in
        let inv_scale_x :=
          if is_l_model then F32.one
          else F32.div F32.one (fst scale_factor) in
        let inv_scale_y :=
          if is_l_model then F32.one
          else F32.div F32.one (snd scale_factor) in
        fst (detect image conf_threshold p)
        = map (row_box DOC_CLASSES cast_undefined output_data
                 inv_scale_x inv_scale_y image)
            (filter (row_passes DOC_CLASSES cast_undefined output_data
                       conf_threshold)
               (row_indices (int_of_int64 (nth 0 (shape output0) 0))))
        /\ forall i,
             let b := row_box DOC_CLASSES cast_undefined output_data
                        inv_scale_x inv_scale_y image i in
             let sx1 := F32.mul (at_index output_data (i * 6 + 2)) inv_scale_x in
             let sy1 := F32.mul (at_index output_data (i * 6 + 3)) inv_scale_y in
             let sx2 := F32.mul (at_index output_data (i * 6 + 4)) inv_scale_x in
             let sy2 := F32.mul (at_index output_data (i * 6 + 5)) inv_scale_y in
             (F32.leb sx1 sx2 = true -> F32.leb (x1 b) (x2 b) = true)
             /\ (F32.ltb sx2 sx1 = true -> F32.leb (x2 b) (x1 b) = true)
             /\ (F32.ltb F32.zero sx2 = true -> F32.ltb sx2 sx1 = true ->
                 F32.leb sx1 width = true -> F32.ltb (x2 b) (x1 b) = true)
             /\ (F32.leb sy1 sy2 = true -> F32.leb (y1 b) (y2 b) = true)
             /\ (F32.ltb sy2 sy1 = true -> F32.leb (y2 b) (y1 b) = true)
             /\ (F32.ltb F32.zero sy2 = true -> F32.ltb sy2 sy1 = true ->
                 F32.leb sy1 height = true -> F32.ltb (y2 b) (y1 b) = true)).
Proof.
  intros Hr Hc width height.
  pose proof (of_Z_nonneg _ Hc) as Hw. pose proof (of_Z_nonneg _ Hr) as Hh.
  destruct (leb_not_nan _ _ Hw) as [_ Hwn].
  destruct (leb_not_nan _ _ Hh) as [_ Hhn].
  assert (Strict : forall a c bound,
             F32.ltb F32.zero c = true -> F32.ltb c a = true ->
             F32.leb a bound = true ->
             F32.ltb (clamp c bound) (clamp a bound) = true).
  { intros a c bound H0 Hca Hab.
    pose proof (ltb_leb _ _ Hca) as Hle.
    rewrite (clamp_inside c bound H0 (leb_trans _ _ _ Hle Hab)).
    rewrite (clamp_inside a bound (ltb_leb_trans _ _ _ H0 Hle) Hab).
    exact Hca. }
  split; [|split; [|split]].
  - intros b Hin.
    destruct (detect_cases DOC_CLASSES preprocessImage imageToBlob
                create_session cast_undefined image conf_threshold p)
      as [E|(outputs & is_l & sf & E)]; rewrite E in Hin; [destruct Hin|].
    apply in_decoded in Hin. destruct Hin as (data & ix & iy & i & ->).
    cbn [x1 x2 y1 y2 row_box].
    repeat split; try apply clamp_lower; apply clamp_upper; assumption.
  - intros Hlt. apply integer_value_of_Z. lia.
  - intros Hlt. apply integer_value_of_Z. lia.
  - intros outputs is_l sf fr' He H. cbv zeta.
    split; [rewrite (detect_ok _ _ _ _ _ _ _ _ _ _ _ _ He H); reflexivity|].
    intros i. cbn [x1 x2 y1 y2 row_box].
    split; [|split; [|split; [|split; [|split]]]].
    + intros Ho. apply clamp_monotone; assumption.
    + intros Ho. apply clamp_monotone; [assumption | apply ltb_leb, Ho].
    + intros H0 Ho Hb. apply Strict; assumption.
    + intros Ho. apply clamp_monotone; assumption.
    + intros Ho. apply clamp_monotone; [assumption | apply ltb_leb, Ho].
    + intros H0 Ho Hb. apply Strict; assumption.
Qed.

End FrameBound.

(** ** Worked examples for the frame bound, input counts and failures *)

Section LastExamples.

Import Stub.

Local Abbreviation run model image conf :=
  (detectDocLayout classes stretch blob (load model) cast_x86 image conf cold).

(** The bound of a frame 16777219 wide is the float 16777220. *)
Example wide_frame_bound_is_rounded :
  integer_value (F32.of_Z 16777219) = Some 16777220.
Proof. reflexivity. Qed.

Lemma boxes_clamped_to_frame_witness :
  0 <= rows (picture 800 600) /\ 0 <= cols (picture 800 600)
  /\ F32.leb (x1 Scenario.crossed_box) (F32.of_Z 800) = true
  /\ integer_value (F32.of_Z 800) = Some 800
  /\ F32.ltb
       (x2 (row_box classes cast_x86 Scenario.crossed_row F32.one F32.one
              (picture 800 600) 0))
       (x1 (row_box classes cast_x86 Scenario.crossed_row F32.one F32.one
              (picture 800 600) 0)) = true.
Proof.
  assert (H1 : 0 <= rows (picture 800 600)) by (simpl; lia).
  assert (H2 : 0 <= cols (picture 800 600)) by (simpl; lia).
  assert (H3 : In Scenario.crossed_box
                 (fst (run Scenario.crossed_model (picture 800 600)
                         Scenario.half)))
    by (vm_compute; left; reflexivity).
  assert (H4 : cols (picture 800 600) < 2 ^ 24) by (simpl; lia).
  pose proof (boxes_clamped_to_frame classes stretch blob
                (load Scenario.crossed_model) cast_x86 (picture 800 600)
                Scenario.half cold H1 H2) as (Hb & Hw & _ & Ho).
  split; [exact H1|]. split; [exact H2|].
  split; [exact (proj2 (proj1 (Hb _ H3)))|].
  split; [exact (Hw H4)|].
  exact (proj1 (proj2 (proj2 (proj2 (Ho _ _ _ _ eq_refl eq_refl) 0)))
           eq_refl eq_refl eq_refl).
Defined.

Lemma other_counts_run_as_two_inputs_witness :
  GetInputCount Scenario.four_input_model <> 3
  /\ input_names Scenario.four_input_model <> []
  /\ output_names Scenario.four_input_model <> []
  /\ fst (run Scenario.four_input_model Scenario.image Scenario.half)
     = decoded classes cast_x86 Scenario.image Scenario.half
         [rows_tensor 1 Scenario.row] false (f32 1 2, f32 2 3).
Proof.
  assert (Hn : GetInputCount Scenario.four_input_model <> 3)
    by (vm_compute; intros H; discriminate H).
  assert (Hi : input_names Scenario.four_input_model <> [])
    by (intros H; discriminate H).
  assert (Ho : output_names Scenario.four_input_model <> [])
    by (intros H; discriminate H).
  split; [exact Hn|]. split; [exact Hi|]. split; [exact Ho|].
  rewrite (proj2 (other_counts_run_as_two_inputs classes stretch blob
                    (load Scenario.four_input_model) cast_x86 Scenario.image
                    Scenario.half cold Scenario.four_input_model _ _ _
                    eq_refl (or_intror (conj eq_refl eq_refl)) Hn Hi Ho
                    eq_refl eq_refl)).
  reflexivity.
Defined.



Lemma from_bytes_without_conversion_witness :
  3 <> 4 /\ 3 <> 1 /\ 480 * 0 = 0
  /\ detectLayoutFromBytes classes stretch blob (load Scenario.m_model)
       cast_x86 Scenario.general_unused Host.cvtColor_fails
       None 0 480 3 Scenario.half 0 5000000 cold
     = Ok (("{" ++ key "detections" ++ "[]," ++ key "count" ++ "0,"
                ++ key "inference_time_ms" ++ "5,"
                ++ key "image_width" ++ "0,"
                ++ key "image_height" ++ "480}")%string, cold).
Proof.
  assert (H4 : 3 <> 4) by lia. assert (H1 : 3 <> 1) by lia.
  assert (Hz : 480 * 0 = 0) by lia.
  split; [exact H4|]. split; [exact H1|]. split; [exact Hz|].
  rewrite (from_bytes_without_conversion classes stretch blob
             (load Scenario.m_model) cast_x86 Scenario.general_unused
             Host.cvtColor_fails None 0 480 3 Scenario.half 0 5000000
             cold H4 H1 Hz).
  reflexivity.
Defined.

End LastExamples.
